(** * fastapi-mongodb: user schema, response projection and request handlers

    A shallow embedding of [schema/user.py], [app.py] and [routers/items.py].

    - Python [str] values are sequences of Unicode code points ([list N]);
      dictionary keys (field names) are [string]s.
    - A dictionary (a JSON request body, a MongoDB document, a dumped model)
      is a [gmap string value].
    - The MongoDB collection is a collaborator behind the [Collection]
      interface; [Mem] is the in-memory reference implementation.
    - The library validators the schema delegates to (e-mail grammar, lax
      boolean and datetime parsing, the rendering of a validation error) are
      the fields of the [Pydantic] class. *)

From Stdlib Require Import ZArith NArith Lia String Ascii DecimalString.
From stdpp Require Import gmap strings list fin_maps.

Open Scope string_scope.
Open Scope list_scope.

(* ===================================================================== *)
(** ** Python strings *)
(* ===================================================================== *)

Module Str.

(** A Python [str]: a sequence of code points. *)
Definition str : Type := list N.

Definition py (s : string) : str :=
  map N_of_ascii (list_ascii_of_string s).

(** Code points with the Unicode White_Space property: what
    [str_strip_whitespace] removes at both ends. *)
Definition is_whitespace (c : N) : bool :=
  (((9 <=? c) && (c <=? 13)) || (c =? 32) || (c =? 133) || (c =? 160)
   || (c =? 5760) || ((8192 <=? c) && (c <=? 8202)) || (c =? 8232)
   || (c =? 8233) || (c =? 8239) || (c =? 8287) || (c =? 12288))%N.

Fixpoint lstrip (s : str) : str :=
  match s with
  | [] => []
  | c :: s' => if is_whitespace c then lstrip s' else s
  end.

Fixpoint rstrip (s : str) : str :=
  match s with
  | [] => []
  | c :: s' =>
      match rstrip s' with
      | [] => if is_whitespace c then [] else [c]
      | r => c :: r
      end
  end.

Definition strip (s : str) : str := rstrip (lstrip s).

(** [sep.join(parts)] *)
Fixpoint join (sep : str) (parts : list str) : str :=
  match parts with
  | [] => []
  | [p] => p
  | p :: ps => p ++ sep ++ join sep ps
  end.

(** The decimal rendering of a number inside an f-string. *)
Definition of_N (n : N) : str := py (NilZero.string_of_uint (N.to_uint n)).

(** The string starts, resp. ends, with a white-space character. *)
Definition starts_ws (s : str) : bool :=
  match s with
  | [] => false
  | c :: _ => is_whitespace c
  end.

Fixpoint ends_ws (s : str) : bool :=
  match s with
  | [] => false
  | [c] => is_whitespace c
  | _ :: s' => ends_ws s'
  end.

End Str.
Import Str.

(* ===================================================================== *)
(** ** Values and documents *)
(* ===================================================================== *)

Definition datetime : Type := Z.

(** What a JSON body or a stored document holds under a key. *)
#[warnings="-register-all"]
Inductive value : Type :=
| VNull
| VBool (b : bool)
| VInt (z : Z)
| VStr (s : str)
| VList (l : list value)
| VDatetime (d : datetime)
| VObjectId (n : N).

Abbreviation doc := (gmap string value).

Fixpoint value_eqb (a b : value) : bool :=
  match a, b with
  | VNull, VNull => true
  | VBool x, VBool y => Bool.eqb x y
  | VInt x, VInt y => (x =? y)%Z
  | VStr x, VStr y => bool_decide (x = y)
  | VList x, VList y =>
      (fix go (x y : list value) : bool :=
         match x, y with
         | [], [] => true
         | v :: x', w :: y' => value_eqb v w && go x' y'
         | _, _ => false
         end) x y
  | VDatetime x, VDatetime y => (x =? y)%Z
  | VObjectId x, VObjectId y => (x =? y)%N
  | _, _ => false
  end.

(** Python-style results: a raised error or a returned value. *)
Inductive result (E A : Type) : Type :=
| Err (e : E)
| Ok (a : A).
Arguments Err {E A} e.
Arguments Ok {E A} a.

Definition is_ok {E A} (r : result E A) : bool :=
  match r with Ok _ => true | Err _ => false end.

(* ===================================================================== *)
(** ** schema/user.py *)
(* ===================================================================== *)

(** One entry of a pydantic validation error. *)
Inductive loc_item : Type :=
| LKey (k : string)
| LIdx (i : nat).

Inductive error_type : Type :=
| missing
| string_type
| string_too_short (min_length : nat)
| string_too_long (max_length : nat)
| list_type
| bool_parsing
| datetime_parsing
| value_error (msg : str).

Record error_details : Type := mk_error {
  loc : list loc_item;
  type : error_type
}.

Definition vres (A : Type) : Type := result (list error_details) A.

Definition errors_of {A} (r : vres A) : list error_details :=
  match r with Err e => e | Ok _ => [] end.

(** The library validators behind [EmailStr], [bool] and [datetime] fields,
    and [str()] of a pydantic [ValidationError]. *)
Class Pydantic : Type := {
  (** [EmailStr]: the normalised address, or the reason of the failure. *)
  validate_email : str -> result str str;
  validate_bool : value -> option bool;
  validate_datetime : value -> option datetime;
  validation_error_str : list error_details -> str;
  (** A normalised address is in normal form and has no outer white space. *)
  validate_email_normal : forall e e',
    validate_email e = Ok e' -> validate_email e' = Ok e' /\ strip e' = e';
  validate_bool_bool : forall b, validate_bool (VBool b) = Some b;
  validate_datetime_datetime : forall d,
    validate_datetime (VDatetime d) = Some d
}.

(** The order in which Python iterates over a set built from the given
    distinct elements: some arrangement of them. *)
Class SetOrder : Type := {
  set_order : list str -> list str;
  set_order_perm : forall l, NoDup l -> set_order l ≡ₚ l
}.

Module UserValidation.

(** [re.match(r'^[a-zA-Z0-9_]+$', username)]. *)
Definition word_char (c : N) : bool :=
  (((97 <=? c) && (c <=? 122)) || ((65 <=? c) && (c <=? 90))
   || ((48 <=? c) && (c <=? 57)) || (c =? 95))%N.

(** After the first character of the class: more of them, then the end of
    the string; [$] also matches just before a final newline. *)
Fixpoint match_tail (s : str) : bool :=
  match s with
  | [] => true
  | c :: s' =>
      if word_char c then match_tail s'
      else (c =? 10)%N && match s' with [] => true | _ => false end
  end.

Definition match_USERNAME_PATTERN (s : str) : bool :=
  match s with
  | [] => false
  | c :: s' => word_char c && match_tail s'
  end.

(** The pattern as the specification words it: the whole string is one or
    more characters of [[A-Za-z0-9_]]. *)
Definition word (s : str) : bool :=
  match s with
  | [] => false
  | _ :: _ => forallb word_char s
  end.

Definition ALLOWED_ROLES : list str :=
  [py "admin"; py "user"; py "editor"; py "viewer"].
Definition USERNAME_MIN_LENGTH : nat := 3.
Definition USERNAME_MAX_LENGTH : nat := 50.
Definition FULLNAME_MAX_LENGTH : nat := 100.
Definition ANONYMOUS_USERNAME : str := py "anonymous".

Definition allowed (r : str) : bool := bool_decide (r ∈ ALLOWED_ROLES).

Definition validate_username_format (username : str) : result str str :=
  if negb (match_USERNAME_PATTERN username)
  then Err (py "Username must be alphanumeric with underscores only")
  else Ok username.

Section Roles.
Context `{SetOrder}.

(** [set(roles) - ALLOWED_ROLES], as iterated. *)
Definition invalid_roles (roles : list str) : list str :=
  set_order (remove_dups (filter (fun r => allowed r = false) roles)).

Definition roles_message (roles : list str) : str :=
  py "Invalid roles: " ++ join (py ", ") (invalid_roles roles)
  ++ py ". " ++ py "Must be one of: "
  ++ join (py ", ") (set_order ALLOWED_ROLES).

Definition validate_roles (roles : list str) : result str (list str) :=
  match invalid_roles roles with
  | [] => Ok roles
  | _ :: _ => Err (roles_message roles)
  end.
End Roles.

End UserValidation.

(** *** Field validation (pydantic) *)

Definition at_loc {A} (l : list loc_item) (r : result error_type A) : vres A :=
  match r with
  | Err t => Err [mk_error l t]
  | Ok a => Ok a
  end.

(** A field declared with [...]: the key must be present. *)
Definition required {A} (d : doc) (k : string) (f : value -> vres A) : vres A :=
  match d !! k with
  | None => Err [mk_error [LKey k] missing]
  | Some v => f v
  end.

(** A field with a default: the default is taken as it is, not validated. *)
Definition with_default {A} (d : doc) (k : string) (dflt : A)
    (f : value -> vres A) : vres A :=
  match d !! k with
  | None => Ok dflt
  | Some v => f v
  end.

(** The [str] schema: only strings are accepted, white space is stripped when
    the model says so, then the length bounds are checked. *)
Definition str_schema (strip_whitespace : bool) (min_length max_length : option nat)
    (v : value) : result error_type str :=
  match v with
  | VStr s =>
      let s := if strip_whitespace then strip s else s in
      match min_length with
      | Some m => if (length s <? m)%nat then Err (string_too_short m) else
          match max_length with
          | Some M => if (M <? length s)%nat then Err (string_too_long M) else Ok s
          | None => Ok s
          end
      | None =>
          match max_length with
          | Some M => if (M <? length s)%nat then Err (string_too_long M) else Ok s
          | None => Ok s
          end
      end
  | _ => Err string_type
  end.

(** The items of a [List[str]] field, every bad item reported at its index. *)
Fixpoint list_items (strip_whitespace : bool) (k : string) (i : nat)
    (l : list value) : vres (list str) :=
  match l with
  | [] => Ok []
  | v :: l' =>
      let r := at_loc [LKey k; LIdx i] (str_schema strip_whitespace None None v) in
      let rs := list_items strip_whitespace k (S i) l' in
      match r, rs with
      | Ok s, Ok ss => Ok (s :: ss)
      | _, _ => Err (errors_of r ++ errors_of rs)
      end
  end.

Definition list_str_schema (strip_whitespace : bool) (k : string) (v : value)
    : vres (list str) :=
  match v with
  | VList l => list_items strip_whitespace k 0 l
  | _ => Err [mk_error [LKey k] list_type]
  end.

(** A [field_validator] in after mode: runs on the validated value, and a
    [ValueError] becomes a [value_error] entry at the field. *)
Definition field_validator {A} (k : string) (f : A -> result str A)
    (r : vres A) : vres A :=
  match r with
  | Err e => Err e
  | Ok a =>
      match f a with
      | Err msg => Err [mk_error [LKey k] (value_error msg)]
      | Ok a' => Ok a'
      end
  end.

Module User.

Record t : Type := mk {
  username : str;
  email : str;
  full_name : str;
  is_active : bool;
  signup_ts : option datetime;
  roles : list str
}.

Section Validate.
Context `{Pydantic} `{SetOrder}.

Definition validate_username (v : str) : result str str :=
  UserValidation.validate_username_format v.

Definition validate_user_roles (v : list str) : result str (list str) :=
  UserValidation.validate_roles v.

Definition username_field (d : doc) : vres str :=
  field_validator "username" validate_username
    (required d "username" (fun v =>
       at_loc [LKey "username"]
         (str_schema true (Some UserValidation.USERNAME_MIN_LENGTH)
            (Some UserValidation.USERNAME_MAX_LENGTH) v))).

Definition email_schema (strip_whitespace : bool) (v : value)
    : result error_type str :=
  match str_schema strip_whitespace None None v with
  | Err t => Err t
  | Ok s =>
      match validate_email s with
      | Err reason => Err (value_error reason)
      | Ok e => Ok e
      end
  end.

Definition email_field (d : doc) : vres str :=
  required d "email" (fun v => at_loc [LKey "email"] (email_schema true v)).

Definition full_name_field (d : doc) : vres str :=
  with_default d "full_name" [] (fun v =>
    at_loc [LKey "full_name"]
      (str_schema true None (Some UserValidation.FULLNAME_MAX_LENGTH) v)).

Definition is_active_field (d : doc) : vres bool :=
  with_default d "is_active" true (fun v =>
    at_loc [LKey "is_active"]
      (match validate_bool v with
       | Some b => Ok b
       | None => Err bool_parsing
       end)).

Definition signup_ts_field (d : doc) : vres (option datetime) :=
  with_default d "signup_ts" None (fun v =>
    at_loc [LKey "signup_ts"]
      (match v with
       | VNull => Ok None
       | _ =>
           match validate_datetime v with
           | Some t => Ok (Some t)
           | None => Err datetime_parsing
           end
       end)).

Definition roles_field (d : doc) : vres (list str) :=
  field_validator "roles" validate_user_roles
    (with_default d "roles" [] (list_str_schema true "roles")).

(** All fields are validated and every error is collected. *)
Definition validate_fields (d : doc) : vres t :=
  let u := username_field d in
  let e := email_field d in
  let f := full_name_field d in
  let a := is_active_field d in
  let s := signup_ts_field d in
  let r := roles_field d in
  match u, e, f, a, s, r with
  | Ok u, Ok e, Ok f, Ok a, Ok s, Ok r => Ok (mk u e f a s r)
  | _, _, _, _, _, _ =>
      Err (errors_of u ++ errors_of e ++ errors_of f ++ errors_of a
           ++ errors_of s ++ errors_of r)
  end.

(** The [model_validator] in after mode. *)
Definition validate_name_requirements (self : t) : result str t :=
  if match full_name self with [] => true | _ => false end
     && bool_decide (username self = UserValidation.ANONYMOUS_USERNAME)
  then Err (py "Either full_name or a non-anonymous username must be provided")
  else Ok self.

Definition model_validate (d : doc) : vres t :=
  match validate_fields d with
  | Err e => Err e
  | Ok self =>
      match validate_name_requirements self with
      | Err msg => Err [mk_error [] (value_error msg)]
      | Ok self => Ok self
      end
  end.
End Validate.

Definition model_dump (self : t) : doc :=
  <["username" := VStr (username self)]>
  (<["email" := VStr (email self)]>
  (<["full_name" := VStr (full_name self)]>
  (<["is_active" := VBool (is_active self)]>
  (<["signup_ts" := match signup_ts self with
                    | None => VNull
                    | Some t => VDatetime t
                    end]>
  (<["roles" := VList (VStr <$> roles self)]> ∅))))).

End User.

Module UserResponse.

Record t : Type := mk {
  username : str;
  email : str;
  full_name : str;
  roles : list str
}.

Section Validate.
Context `{Pydantic}.

(** No model configuration here: nothing is stripped, no bound applies,
    and all four fields are required. *)
Definition validate_fields (d : doc) : vres t :=
  let u := required d "username" (fun v =>
             at_loc [LKey "username"] (str_schema false None None v)) in
  let e := required d "email" (fun v =>
             at_loc [LKey "email"] (User.email_schema false v)) in
  let f := required d "full_name" (fun v =>
             at_loc [LKey "full_name"] (str_schema false None None v)) in
  let r := required d "roles" (list_str_schema false "roles") in
  match u, e, f, r with
  | Ok u, Ok e, Ok f, Ok r => Ok (mk u e f r)
  | _, _, _, _ =>
      Err (errors_of u ++ errors_of e ++ errors_of f ++ errors_of r)
  end.

Definition model_validate (d : doc) : vres t := validate_fields d.
End Validate.

(** The serialised form: one key per declared field. *)
Definition model_dump (self : t) : doc :=
  <["username" := VStr (username self)]>
  (<["email" := VStr (email self)]>
  (<["full_name" := VStr (full_name self)]>
  (<["roles" := VList (VStr <$> roles self)]> ∅))).

End UserResponse.

(* ===================================================================== *)
(** ** app.py *)
(* ===================================================================== *)

Inductive exn : Type :=
| HTTPException (status_code : N) (detail : str)
| ValidationError (errors : list error_details)
| Exception (msg : str).

Definition HTTP_200_OK : N := 200.
Definition HTTP_201_CREATED : N := 201.
Definition HTTP_404_NOT_FOUND : N := 404.
Definition HTTP_422_UNPROCESSABLE_ENTITY : N := 422.
Definition HTTP_500_INTERNAL_SERVER_ERROR : N := 500.

(** A MongoDB filter document. *)
#[warnings="-register-all"]
Inductive query : Type :=
| q_all
| q_eq (k : string) (v : value)
| q_or (qs : list query).

(** The operations of [db.get_collection("users")]; [S] is the state of the
    database, and every call may raise. *)
Class Collection (S : Type) : Type := {
  insert_one : doc -> S -> result exn value * S;
  find_one : query -> S -> result exn (option doc) * S;
  find : query -> S -> result exn (list doc) * S;
  delete_one : query -> S -> result exn unit * S
}.

(** A handler body: it runs against the database and returns or raises. *)
Definition M (S A : Type) : Type := S -> result exn A * S.

Definition ret {S A} (a : A) : M S A := fun s => (Ok a, s).
Definition raise {S A} (e : exn) : M S A := fun s => (Err e, s).
Definition bind {S A B} (m : M S A) (k : A -> M S B) : M S B :=
  fun s =>
    match m s with
    | (Ok a, s') => k a s'
    | (Err e, s') => (Err e, s')
    end.
Definition try_except {S A} (m : M S A) (handler : exn -> M S A) : M S A :=
  fun s =>
    match m s with
    | (Ok a, s') => (Ok a, s')
    | (Err e, s') => handler e s'
    end.

Notation "x <- m ;; k" := (bind m (fun x => k))
  (at level 100, m at next level, right associativity).

(** A failed [model_validate] raises [ValidationError]. *)
Definition validated {S A} (r : vres A) : M S A :=
  match r with
  | Err e => raise (ValidationError e)
  | Ok a => ret a
  end.

(** *** What the client receives *)

Inductive body : Type :=
| Detail (detail : str)
| DetailErrors (errors : list error_details)
| Object (o : doc)
| Array (a : list doc).

Record response : Type := mk_response {
  status : N;
  content : body
}.

Definition root : doc :=
  {[ "message" := VStr (py "Welcome to the Fast API with MongoDB !") ]}.

Section App.
Context `{Pydantic} `{SetOrder} {S : Type} `{Collection S}.

(** [str(err)]: the message of a plain exception; Starlette renders an
    [HTTPException] as its status code, a colon and its detail. *)
Definition exn_str (err : exn) : str :=
  match err with
  | HTTPException status_code detail => of_N status_code ++ py ": " ++ detail
  | ValidationError errors => validation_error_str errors
  | Exception msg => msg
  end.

(** [[UserResponse.model_validate(user) for user in users]]: the first
    record that fails raises. *)
Fixpoint validate_all (users : list doc) : M S (list UserResponse.t) :=
  match users with
  | [] => ret []
  | user :: users' =>
      u <- validated (UserResponse.model_validate user) ;;
      us <- validate_all users' ;;
      ret (u :: us)
  end.

Definition create_user (user : User.t) : M S User.t :=
  try_except
    (let user_dict := User.model_dump user in
     inserted_id <- insert_one user_dict ;;
     created_user <- find_one (q_eq "_id" inserted_id) ;;
     match created_user with
     | None =>
         raise (HTTPException HTTP_500_INTERNAL_SERVER_ERROR
                  (py "Failed to create user"))
     | Some created_user => validated (User.model_validate created_user)
     end)
    (fun err =>
       match err with
       | ValidationError _ =>
           raise (HTTPException HTTP_422_UNPROCESSABLE_ENTITY (exn_str err))
       | _ =>
           raise (HTTPException HTTP_500_INTERNAL_SERVER_ERROR (exn_str err))
       end).

Definition get_users : M S (list UserResponse.t) :=
  try_except
    (users <- find q_all ;;
     user_list <- validate_all users ;;
     ret user_list)
    (fun err =>
       raise (HTTPException HTTP_500_INTERNAL_SERVER_ERROR (exn_str err))).

Definition get_user (search : str) : M S (list UserResponse.t) :=
  try_except
    (users <- find (q_or [q_eq "email" (VStr search);
                          q_eq "username" (VStr search)]) ;;
     user_list <- validate_all users ;;
     match user_list with
     | [] => raise (HTTPException HTTP_404_NOT_FOUND (py "No user found"))
     | _ :: _ => ret user_list
     end)
    (fun err =>
       match err with
       | HTTPException _ _ => raise err
       | _ =>
           raise (HTTPException HTTP_500_INTERNAL_SERVER_ERROR (exn_str err))
       end).

Definition delete_user (email : str) : M S doc :=
  try_except
    (users <- find (q_eq "email" (VStr email)) ;;
     match users with
     | [] => raise (HTTPException HTTP_404_NOT_FOUND (py "No user found"))
     | _ :: _ =>
         _ <- delete_one (q_eq "email" (VStr email)) ;;
         ret ({[ "message" :=
                 VStr (py "User with email " ++ email
                       ++ py " deleted successfully") ]} : doc)
     end)
    (fun err =>
       match err with
       | HTTPException _ _ => raise err
       | _ =>
           raise (HTTPException HTTP_500_INTERNAL_SERVER_ERROR (exn_str err))
       end).

(** The framework turns a returned value into the declared status and the
    serialised response model, and a raised [HTTPException] into its status
    and a [detail] body. *)
Definition respond {A} (status_code : N) (serialise : A -> body)
    (r : result exn A * S) : response * S :=
  match r with
  | (Ok a, s) => (mk_response status_code (serialise a), s)
  | (Err (HTTPException c d), s) => (mk_response c (Detail d), s)
  | (Err _, s) =>
      (mk_response HTTP_500_INTERNAL_SERVER_ERROR
         (Detail (py "Internal Server Error")), s)
  end.

(** POST /users/: the body is validated against [User] before the handler
    is called; a body that fails is answered with 422. *)
Definition post_users (payload : doc) (s : S) : response * S :=
  match User.model_validate payload with
  | Err errors =>
      (mk_response HTTP_422_UNPROCESSABLE_ENTITY (DetailErrors errors), s)
  | Ok user =>
      respond HTTP_201_CREATED (fun u => Object (User.model_dump u))
        (create_user user s)
  end.

Definition list_users (s : S) : response * S :=
  respond HTTP_200_OK (fun l => Array (UserResponse.model_dump <$> l))
    (get_users s).

Definition search_users (search : str) (s : S) : response * S :=
  respond HTTP_200_OK (fun l => Array (UserResponse.model_dump <$> l))
    (get_user search s).

Definition delete_users (email : str) (s : S) : response * S :=
  respond HTTP_200_OK Object (delete_user email s).

End App.

(* ===================================================================== *)
(** ** The collection in memory *)
(* ===================================================================== *)

Module Mem.

(** The documents of the collection, in insertion order. *)
Definition t : Type := list doc.

(** Equality on a field also matches an array that holds the value, and
    [null] matches an absent field. *)
Fixpoint matches (q : query) (d : doc) : bool :=
  match q with
  | q_all => true
  | q_eq k v =>
      match d !! k with
      | Some w =>
          value_eqb w v
          || match w with
             | VList l => existsb (fun x => value_eqb x v) l
             | _ => false
             end
      | None => match v with VNull => true | _ => false end
      end
  | q_or qs => existsb (fun q' => matches q' d) qs
  end.

Definition object_id (d : doc) : N :=
  match d !! "_id" with
  | Some (VObjectId n) => n
  | _ => 0
  end.

(** A fresh identifier: above every identifier in the collection. *)
Definition fresh_id (c : t) : N :=
  N.succ (foldr (fun d m => N.max (object_id d) m) 0%N c).

Definition has_id (id : value) (d : doc) : bool :=
  match d !! "_id" with
  | Some w => value_eqb w id
  | None => false
  end.

Fixpoint remove_first (f : doc -> bool) (c : t) : t :=
  match c with
  | [] => []
  | d :: c' => if f d then c' else d :: remove_first f c'
  end.

Definition mem_insert_one (d : doc) (c : t) : result exn value * t :=
  match d !! "_id" with
  | Some id =>
      if existsb (has_id id) c
      then (Err (Exception (py "E11000 duplicate key error")), c)
      else (Ok id, c ++ [d])
  | None =>
      let id := VObjectId (fresh_id c) in
      (Ok id, c ++ [<["_id" := id]> d])
  end.

Definition mem_find (q : query) (c : t) : result exn (list doc) * t :=
  (Ok (List.filter (matches q) c), c).

Definition mem_find_one (q : query) (c : t) : result exn (option doc) * t :=
  (Ok (head (List.filter (matches q) c)), c).

Definition mem_delete_one (q : query) (c : t) : result exn unit * t :=
  (Ok tt, remove_first (matches q) c).

#[global] Instance collection : Collection t := {
  insert_one := mem_insert_one;
  find_one := mem_find_one;
  find := mem_find;
  delete_one := mem_delete_one
}.

End Mem.

(* ===================================================================== *)
(** ** routers/items.py and the route table *)
(* ===================================================================== *)

Definition get_items : list doc :=
  [ {[ "username" := VStr (py "Alice") ]}; {[ "username" := VStr (py "Bob") ]} ].

Inductive http_method : Type := GET | POST | DELETE.

Inductive segment : Type :=
| Lit (s : str)
| Param (name : string).

Inductive endpoint : Type :=
| ep_root
| ep_create_user
| ep_get_users
| ep_get_user
| ep_delete_user
| ep_get_items.

Record route : Type := mk_route {
  route_method : http_method;
  route_path : list segment;
  route_endpoint : endpoint
}.

Definition method_eqb (a b : http_method) : bool :=
  match a, b with
  | GET, GET | POST, POST | DELETE, DELETE => true
  | _, _ => false
  end.

Fixpoint is_prefix (p s : str) : bool :=
  match p, s with
  | [], _ => true
  | a :: p', b :: s' => (a =? b)%N && is_prefix p' s'
  | _ :: _, [] => false
  end.

(** A path against a route pattern, as [re.match] with the pattern compiled
    to a regular expression ending in [$]: a parameter takes one or more
    characters other than the slash, as many as the rest of the pattern
    allows, and the end of the pattern matches at the end of the path or
    just before a final newline. *)
Fixpoint match_path (pat : list segment) (path : str)
    : option (list (string * str)) :=
  match pat with
  | [] =>
      match path with
      | [] => Some []
      | [c] => if (c =? 10)%N then Some [] else None
      | _ :: _ :: _ => None
      end
  | Lit l :: pat' =>
      if is_prefix l path then match_path pat' (drop (length l) path) else None
  | Param name :: pat' =>
      (fix take (taken rest : str) {struct rest} : option (list (string * str)) :=
         let here :=
           match taken with
           | [] => None
           | _ :: _ => cons (name, taken) <$> match_path pat' rest
           end in
         match rest with
         | [] => here
         | c :: rest' =>
             if (c =? 47)%N then here
             else match take (taken ++ [c]) rest' with
                  | Some r => Some r
                  | None => here
                  end
         end) [] path
  end.

(** The routes the decorators of [app.py] register on [app], in order. *)
Definition app_routes : list route :=
  [ mk_route GET [Lit (py "/")] ep_root;
    mk_route POST [Lit (py "/users/")] ep_create_user;
    mk_route GET [Lit (py "/users/")] ep_get_users;
    mk_route GET [Lit (py "/users/"); Param "search"] ep_get_user;
    mk_route DELETE [Lit (py "/users/"); Param "email"] ep_delete_user ].

(** The routes registered on the [router] of [routers/items.py]. *)
Definition items_router : list route :=
  [ mk_route GET [Lit (py "/")] ep_get_items ].

(** [include_router(router, prefix=...)]: what mounting a router would add. *)
Definition include_router (prefix : str) (router : list route) : list route :=
  (fun r => mk_route (route_method r) (Lit prefix :: route_path r)
              (route_endpoint r)) <$> router.

Inductive routed : Type :=
| Full (e : endpoint) (params : list (string * str))
| MethodNotAllowed
| RedirectTo (path : str)
| NotFound.

(** The first route matching path and method. *)
Fixpoint first_full (routes : list route) (m : http_method) (path : str)
    : option (endpoint * list (string * str)) :=
  match routes with
  | [] => None
  | r :: routes' =>
      match match_path (route_path r) path with
      | Some params =>
          if method_eqb (route_method r) m then Some (route_endpoint r, params)
          else first_full routes' m path
      | None => first_full routes' m path
      end
  end.

Definition any_path_match (routes : list route) (path : str) : bool :=
  existsb (fun r => bool_decide (is_Some (match_path (route_path r) path))) routes.

(** [path.rstrip("/")] *)
Fixpoint rstrip_slashes (path : str) : str :=
  match path with
  | [] => []
  | c :: path' =>
      match rstrip_slashes path' with
      | [] => if (c =? 47)%N then [] else [c]
      | r => c :: r
      end
  end.

(** The path tried for a redirect: without its final slashes when it ends
    in a slash, with one more slash otherwise. *)
Definition toggle_slash (path : str) : str :=
  match rev path with
  | 47%N :: _ => rstrip_slashes path
  | _ => path ++ [47%N]
  end.

Definition dispatch (routes : list route) (m : http_method) (path : str) : routed :=
  match first_full routes m path with
  | Some (e, params) => Full e params
  | None =>
      if any_path_match routes path then MethodNotAllowed
      else if bool_decide (path = py "/") then NotFound
      else if any_path_match routes (toggle_slash path)
           then RedirectTo (toggle_slash path)
           else NotFound
  end.

Section Serve.
Context `{Pydantic} `{SetOrder} {S : Type} `{Collection S}.

(** One request against the application. *)
Definition serve (routes : list route) (m : http_method) (path : str)
    (payload : doc) (s : S) : response * S :=
  match dispatch routes m path with
  | Full ep_root _ => (mk_response HTTP_200_OK (Object root), s)
  | Full ep_create_user _ => post_users payload s
  | Full ep_get_users _ => list_users s
  | Full ep_get_user [(_, search)] => search_users search s
  | Full ep_delete_user [(_, email)] => delete_users email s
  | Full ep_get_items _ => (mk_response HTTP_200_OK (Array get_items), s)
  | Full _ _ =>
      (mk_response HTTP_500_INTERNAL_SERVER_ERROR
         (Detail (py "Internal Server Error")), s)
  | MethodNotAllowed => (mk_response 405 (Detail (py "Method Not Allowed")), s)
  | RedirectTo _ => (mk_response 307 (Detail []), s)
  | NotFound => (mk_response HTTP_404_NOT_FOUND (Detail (py "Not Found")), s)
  end.
End Serve.

(* ===================================================================== *)
(** ** Reference instances for closed examples *)
(* ===================================================================== *)

Module Examples.

(** A minimal e-mail grammar: one [@] between two non-empty parts made of
    letters, digits, dots, dashes and underscores; nothing is rewritten. *)
Definition addr_char (c : N) : bool :=
  (UserValidation.word_char c || (c =? 46) || (c =? 45))%N.

Fixpoint split_at (e : str) : option (str * str) :=
  match e with
  | [] => None
  | c :: e' =>
      if (c =? 64)%N then Some ([], e')
      else match split_at e' with
           | Some (l, d) => Some (c :: l, d)
           | None => None
           end
  end.

Definition simple_email (e : str) : result str str :=
  match split_at e with
  | Some ((_ :: _) as l, (_ :: _) as d) =>
      if forallb addr_char l && forallb addr_char d then Ok e
      else Err (py "value is not a valid email address")
  | _ => Err (py "value is not a valid email address")
  end.

Definition strict_bool (v : value) : option bool :=
  match v with VBool b => Some b | _ => None end.

Definition strict_datetime (v : value) : option datetime :=
  match v with VDatetime d => Some d | _ => None end.

End Examples.

(* ===================================================================== *)
(** ** A collection that loses what it is given *)
(* ===================================================================== *)

(** The mocked collection of [test_create_user_1]: [insert_one] answers with
    the identifier "mock_id", and nothing is ever found. The state is the
    log of the documents passed to [insert_one]. *)
Module Mock.

Record t : Type := mk { inserted : list doc }.

#[global] Instance collection : Collection t := {
  insert_one := fun d s => (Ok (VStr (py "mock_id")), mk (inserted s ++ [d]));
  find_one := fun _ s => (Ok None, s);
  find := fun _ s => (Ok [], s);
  delete_one := fun _ s => (Ok tt, s)
}.

End Mock.

(* ===================================================================== *)
(** ** Stored users and reachable collections *)
(* ===================================================================== *)

(** The public view of a user: the four fields of [UserResponse]. *)
Definition projection (u : User.t) : UserResponse.t :=
  UserResponse.mk (User.username u) (User.email u) (User.full_name u)
    (User.roles u).

(** The JSON object has the four public fields of the user, with the user's
    values, and no other key. *)
Definition shows (o : doc) (u : User.t) : Prop :=
  o !! "username" = Some (VStr (User.username u))
  /\ o !! "email" = Some (VStr (User.email u))
  /\ o !! "full_name" = Some (VStr (User.full_name u))
  /\ o !! "roles" = Some (VList (VStr <$> User.roles u))
  /\ dom o = ({["username"; "email"; "full_name"; "roles"]} : gset string).

Section Invariant.
Context {P : Pydantic} {O : SetOrder}.
Import UserValidation.

(** What holds of every user the schema lets through. *)
Definition canonical (u : User.t) : Prop :=
  word (User.username u) = true
  /\ USERNAME_MIN_LENGTH <= length (User.username u) <= USERNAME_MAX_LENGTH
  /\ validate_email (User.email u) = Ok (User.email u)
  /\ strip (User.email u) = User.email u
  /\ strip (User.full_name u) = User.full_name u
  /\ length (User.full_name u) <= FULLNAME_MAX_LENGTH
  /\ Forall (fun r => allowed r = true) (User.roles u)
  /\ User.validate_name_requirements u = Ok u.

(** The document holds the dumped fields of the user, whatever else it
    holds. *)
Definition holds (d : doc) (u : User.t) : Prop :=
  d !! "username" = Some (VStr (User.username u))
  /\ d !! "email" = Some (VStr (User.email u))
  /\ d !! "full_name" = Some (VStr (User.full_name u))
  /\ d !! "is_active" = Some (VBool (User.is_active u))
  /\ d !! "signup_ts" = Some (match User.signup_ts u with
                              | None => VNull
                              | Some t => VDatetime t
                              end)
  /\ d !! "roles" = Some (VList (VStr <$> User.roles u)).

(** A document as [create_user] stores it. *)
Definition stored_user (d : doc) : Prop :=
  exists n u, d = <["_id" := VObjectId n]> (User.model_dump u) /\ canonical u.

(** The collections the application produces, starting from the empty
    one; the two read operations leave the collection as it is. *)
Inductive reachable : Mem.t -> Prop :=
| reachable_empty : reachable []
| reachable_post payload c :
    reachable c -> reachable (snd (post_users payload c))
| reachable_delete email c :
    reachable c -> reachable (snd (delete_users email c)).
End Invariant.

(* ===================================================================== *)
(** ** Properties of strings *)
(* ===================================================================== *)

(** Turns boolean comparisons on code points into arithmetic. *)
Ltac bool_arith :=
  repeat match goal with
    | H : _ && _ = true |- _ => apply andb_true_iff in H; destruct H
    | H : _ || _ = true |- _ => apply orb_true_iff in H; destruct H
    | H : _ || _ = false |- _ => apply orb_false_iff in H; destruct H
    | H : (_ <=? _)%N = true |- _ => apply N.leb_le in H
    | H : (_ <=? _)%N = false |- _ => apply N.leb_gt in H
    | H : (_ =? _)%N = true |- _ => apply N.eqb_eq in H
    | H : (_ =? _)%N = false |- _ => apply N.eqb_neq in H
    | H : _ && _ = false |- _ => apply andb_false_iff in H; destruct H
    end; try lia.

Section StrFacts.
Implicit Types s : str.

Lemma lstrip_starts s : starts_ws (lstrip s) = false.
Proof.
  induction s as [|c s IH]; simpl; [done|].
  destruct (is_whitespace c) eqn:E; [done|]. simpl. by rewrite E.
Qed.

Lemma lstrip_id s : starts_ws s = false -> lstrip s = s.
Proof. destruct s as [|c s]; simpl; [done|]. by intros ->. Qed.

Lemma rstrip_ends s : ends_ws (rstrip s) = false.
Proof.
  induction s as [|c s IH]; simpl; [done|].
  destruct (rstrip s) as [|r rs] eqn:E.
  - destruct (is_whitespace c) eqn:Ec; simpl; [done|]. by rewrite Ec.
  - done.
Qed.

Lemma rstrip_id s : ends_ws s = false -> rstrip s = s.
Proof.
  induction s as [|c s IH]; simpl; [done|].
  destruct s as [|c' s'].
  - simpl. by intros ->.
  - intros Hs. by rewrite (IH Hs).
Qed.

Lemma rstrip_starts s : starts_ws s = false -> starts_ws (rstrip s) = false.
Proof.
  destruct s as [|c s]; simpl; [done|]. intros Hc.
  destruct (rstrip s); [by rewrite Hc|done].
Qed.

Lemma strip_starts s : starts_ws (strip s) = false.
Proof. apply rstrip_starts, lstrip_starts. Qed.

Lemma strip_ends s : ends_ws (strip s) = false.
Proof. apply rstrip_ends. Qed.

Lemma strip_id s : starts_ws s = false -> ends_ws s = false -> strip s = s.
Proof. intros H1 H2. unfold strip. by rewrite lstrip_id, rstrip_id. Qed.

Lemma strip_idem s : strip (strip s) = strip s.
Proof. apply strip_id; [apply strip_starts | apply strip_ends]. Qed.

Lemma ends_ws_forall s :
  forallb (fun c => negb (is_whitespace c)) s = true -> ends_ws s = false.
Proof.
  induction s as [|c s IH]; simpl; [done|].
  intros [Hc Hs]%andb_true_iff. destruct s; [by destruct (is_whitespace c)|].
  by apply IH.
Qed.

Lemma strip_no_ws s :
  forallb (fun c => negb (is_whitespace c)) s = true -> strip s = s.
Proof.
  intros Hs. apply strip_id; [|by apply ends_ws_forall].
  destruct s as [|c s]; simpl in *; [done|].
  apply andb_true_iff in Hs as [Hc _]. by destruct (is_whitespace c).
Qed.

Lemma strip_nil : strip [] = [].
Proof. reflexivity. Qed.
End StrFacts.

(* ===================================================================== *)
(** ** Properties of the username pattern *)
(* ===================================================================== *)

Section PatternFacts.
Import UserValidation.
Implicit Types s : str.

Lemma word_char_not_ws c : word_char c = true -> is_whitespace c = false.
Proof.
  unfold word_char, is_whitespace. intros Hc.
  destruct (_ || _) eqn:E in |- *; [|done].
  exfalso. bool_arith.
Qed.

Lemma newline_ws : is_whitespace 10 = true.
Proof. reflexivity. Qed.

Lemma match_tail_word s :
  ends_ws s = false -> match_tail s = forallb word_char s.
Proof.
  induction s as [|c s IH]; simpl; [done|]. intros Hs.
  destruct (word_char c) eqn:Ec; simpl.
  - destruct s as [|c' s']; [done|]. by apply IH.
  - destruct s as [|c' s']; [|by rewrite andb_false_r].
    destruct (c =? 10)%N eqn:E10; [|done].
    apply N.eqb_eq in E10. subst c. by rewrite newline_ws in Hs.
Qed.

(** On a stripped string, [re.match] with the anchored pattern is a full
    match of [[A-Za-z0-9_]+]. *)
Lemma match_pattern_word s :
  ends_ws s = false -> match_USERNAME_PATTERN s = word s.
Proof.
  destruct s as [|c s]; simpl; [done|]. intros Hs.
  destruct (word_char c) eqn:Ec; simpl; [|done].
  destruct s as [|c' s']; [done|]. by apply match_tail_word.
Qed.

Lemma word_no_ws s :
  word s = true -> forallb (fun c => negb (is_whitespace c)) s = true.
Proof.
  unfold word. destruct s as [|c s]; [done|].
  generalize (c :: s). clear. intros s.
  induction s as [|c s IH]; simpl; [done|].
  intros [Hc Hs]%andb_true_iff. rewrite (word_char_not_ws _ Hc). by apply IH.
Qed.

Lemma strip_word s : word s = true -> strip s = s.
Proof. intros Hs. by apply strip_no_ws, word_no_ws. Qed.
End PatternFacts.

(* ===================================================================== *)
(** ** Properties of the User schema *)
(* ===================================================================== *)

Section UserFacts.
Context `{Pydantic} `{SetOrder}.
Import UserValidation.
Implicit Types (d payload : doc) (u : User.t).

Lemma validate_fields_ok d u :
  User.validate_fields d = Ok u <->
  User.username_field d = Ok (User.username u)
  /\ User.email_field d = Ok (User.email u)
  /\ User.full_name_field d = Ok (User.full_name u)
  /\ User.is_active_field d = Ok (User.is_active u)
  /\ User.signup_ts_field d = Ok (User.signup_ts u)
  /\ User.roles_field d = Ok (User.roles u).
Proof.
  unfold User.validate_fields.
  destruct (User.username_field d), (User.email_field d),
    (User.full_name_field d), (User.is_active_field d),
    (User.signup_ts_field d), (User.roles_field d), u;
    simpl; (split; [intros ? | intros (?&?&?&?&?&?)]); by simplify_eq.
Qed.

(** The errors of every field are part of the error of the model. *)
Lemma validate_fields_err d :
  (exists u, User.validate_fields d = Ok u)
  \/ User.validate_fields d =
       Err (errors_of (User.username_field d) ++ errors_of (User.email_field d)
            ++ errors_of (User.full_name_field d)
            ++ errors_of (User.is_active_field d)
            ++ errors_of (User.signup_ts_field d)
            ++ errors_of (User.roles_field d)).
Proof.
  unfold User.validate_fields.
  destruct (User.username_field d), (User.email_field d),
    (User.full_name_field d), (User.is_active_field d),
    (User.signup_ts_field d), (User.roles_field d); eauto.
Qed.

Lemma model_validate_ok d u :
  User.model_validate d = Ok u <->
  User.validate_fields d = Ok u /\ User.validate_name_requirements u = Ok u.
Proof.
  unfold User.model_validate.
  destruct (User.validate_fields d) as [e|u']; [by split; [|intros []]|].
  unfold User.validate_name_requirements.
  destruct (_ && _) eqn:E.
  - split; [done|]. intros [[= ->] Hu]. by rewrite E in Hu.
  - split; [by intros [= ->]; rewrite E|]. by intros [[= ->] _].
Qed.

(** What the username field does with a string. *)
Lemma username_field_str d raw :
  d !! "username" = Some (VStr raw) ->
  User.username_field d =
    if (length (strip raw) <? USERNAME_MIN_LENGTH)%nat
    then Err [mk_error [LKey "username"] (string_too_short USERNAME_MIN_LENGTH)]
    else if (USERNAME_MAX_LENGTH <? length (strip raw))%nat
    then Err [mk_error [LKey "username"] (string_too_long USERNAME_MAX_LENGTH)]
    else if word (strip raw) then Ok (strip raw)
    else Err [mk_error [LKey "username"]
                (value_error (py "Username must be alphanumeric with underscores only"))].
Proof.
  intros Hd. unfold User.username_field, required. rewrite Hd. simpl.
  destruct (length (strip raw) <? USERNAME_MIN_LENGTH)%nat; [done|].
  destruct (USERNAME_MAX_LENGTH <? length (strip raw))%nat; [done|]. simpl.
  unfold User.validate_username, validate_username_format.
  rewrite (match_pattern_word _ (strip_ends raw)).
  by destruct (word (strip raw)).
Qed.

End UserFacts.

Section RolesFacts.
Context {O : SetOrder}.
Import UserValidation.
Implicit Types roles : list str.

Lemma allowed_strip r : allowed r = true -> strip r = r.
Proof.
  unfold allowed. intros Hr%bool_decide_eq_true.
  unfold ALLOWED_ROLES in Hr.
  repeat (apply elem_of_cons in Hr as [->|Hr]; [reflexivity|]).
  by apply elem_of_nil in Hr.
Qed.


(** The offending values: the entries outside the allowed set, once each. *)
Lemma invalid_roles_perm roles :
  invalid_roles roles ≡ₚ remove_dups (filter (fun r => allowed r = false) roles).
Proof. apply set_order_perm, NoDup_remove_dups. Qed.

Lemma elem_of_invalid_roles roles r :
  r ∈ invalid_roles roles <-> r ∈ roles /\ allowed r = false.
Proof.
  rewrite invalid_roles_perm, elem_of_remove_dups, list_elem_of_filter.
  tauto.
Qed.

Lemma invalid_roles_nil roles :
  invalid_roles roles = [] <-> Forall (fun r => allowed r = true) roles.
Proof.
  rewrite Forall_forall. split.
  - intros Hnil r Hr. destruct (allowed r) eqn:E; [done|].
    assert (r ∈ invalid_roles roles) as Hin by by apply elem_of_invalid_roles.
    rewrite Hnil in Hin. by apply elem_of_nil in Hin.
  - intros Hall. destruct (invalid_roles roles) as [|r l] eqn:E; [done|].
    assert (r ∈ invalid_roles roles) as Hin by (rewrite E; left).
    apply elem_of_invalid_roles in Hin as [Hin Hr].
    by rewrite (Hall r Hin) in Hr.
Qed.

Lemma validate_roles_ok roles :
  Forall (fun r => allowed r = true) roles -> validate_roles roles = Ok roles.
Proof.
  intros Hall%invalid_roles_nil. unfold validate_roles. by rewrite Hall.
Qed.


Lemma validate_roles_inv roles roles' :
  validate_roles roles = Ok roles' ->
  roles' = roles /\ Forall (fun r => allowed r = true) roles.
Proof.
  unfold validate_roles. destruct (invalid_roles roles) eqn:E; [|done].
  intros [= <-]. split; [done|]. by apply invalid_roles_nil.
Qed.
End RolesFacts.

(* ===================================================================== *)
(** ** Validation of stored users *)
(* ===================================================================== *)

Section Revalidate.
Context {P : Pydantic} {O : SetOrder}.
Import UserValidation.
Implicit Types (d : doc) (u : User.t).

Lemma list_items_stripped k i (l : list str) :
  Forall (fun x => strip x = x) l ->
  list_items true k i (VStr <$> l) = Ok l.
Proof.
  intros Hl. revert i. induction Hl as [|x l Hx _ IH]; intros i; [done|].
  cbn [fmap list_fmap list_items]. simpl. rewrite Hx.
  change (list_fmap str value VStr l) with (VStr <$> l).
  by rewrite IH.
Qed.

Lemma list_items_plain k i (l : list str) :
  list_items false k i (VStr <$> l) = Ok l.
Proof.
  revert i. induction l as [|x l IH]; intros i; [done|].
  cbn [fmap list_fmap list_items]. simpl.
  change (list_fmap str value VStr l) with (VStr <$> l).
  by rewrite IH.
Qed.

Lemma list_items_strip_inv k i (vs : list value) (l : list str) :
  list_items true k i vs = Ok l -> Forall (fun x => strip x = x) l.
Proof.
  revert i l. induction vs as [|v vs IH]; intros i l; simpl.
  - by intros [= <-].
  - destruct v; simpl; try done.
    destruct (list_items true k (S i) vs) as [e|ss] eqn:E; [done|].
    intros [= <-]. constructor; [apply strip_idem|by eapply IH].
Qed.

(** Every user that passes the schema is canonical. *)
Lemma username_field_inv d n :
  User.username_field d = Ok n ->
  word n = true /\ USERNAME_MIN_LENGTH <= length n <= USERNAME_MAX_LENGTH.
Proof.
  destruct (d !! "username") as [v|] eqn:Hd;
    [|by unfold User.username_field, required; rewrite Hd].
  destruct v as [| | |raw| | |];
    try by unfold User.username_field, required; rewrite Hd.
  rewrite (username_field_str _ _ Hd).
  destruct (length (strip raw) <? USERNAME_MIN_LENGTH)%nat eqn:E1; [done|].
  destruct (USERNAME_MAX_LENGTH <? length (strip raw))%nat eqn:E2; [done|].
  destruct (word (strip raw)) eqn:E3; [|done]. intros [= <-].
  apply Nat.ltb_ge in E1, E2. done.
Qed.

Lemma email_field_inv d e :
  User.email_field d = Ok e -> validate_email e = Ok e /\ strip e = e.
Proof.
  unfold User.email_field, required, User.email_schema.
  destruct (d !! "email") as [v|]; [|done].
  destruct v as [| | |raw| | |]; simpl; try done.
  destruct (validate_email (strip raw)) as [|e'] eqn:E; simpl; [done|].
  intros [= <-]. by eapply validate_email_normal.
Qed.

Lemma full_name_field_inv d f :
  User.full_name_field d = Ok f ->
  strip f = f /\ length f <= FULLNAME_MAX_LENGTH.
Proof.
  unfold User.full_name_field, with_default.
  destruct (d !! "full_name") as [v|];
    [|intros [= <-]; split; [done|unfold FULLNAME_MAX_LENGTH; simpl; lia]].
  destruct v as [| | |raw| | |]; simpl; try done.
  destruct (FULLNAME_MAX_LENGTH <? length (strip raw))%nat eqn:E; simpl;
    [done|].
  intros [= <-]. apply Nat.ltb_ge in E. split; [apply strip_idem|done].
Qed.

Lemma roles_field_inv d r :
  User.roles_field d = Ok r -> Forall (fun x => allowed x = true) r.
Proof.
  unfold User.roles_field, field_validator.
  destruct (with_default _ _ _ _) as [|r0]; [done|].
  unfold User.validate_user_roles.
  destruct (validate_roles r0) as [|r1] eqn:E; [done|]. intros [= <-].
  by apply validate_roles_inv in E as [-> ?].
Qed.

Lemma model_validate_canonical d u :
  User.model_validate d = Ok u -> canonical u.
Proof.
  intros [Hf Hn]%model_validate_ok.
  apply validate_fields_ok in Hf as (Hu & He & Hfn & _ & _ & Hr).
  apply username_field_inv in Hu as [? ?].
  apply email_field_inv in He as [? ?].
  apply full_name_field_inv in Hfn as [? ?].
  apply roles_field_inv in Hr. unfold canonical. tauto.
Qed.

Lemma holds_model_dump u (id : value) :
  holds (<["_id" := id]> (User.model_dump u)) u.
Proof. unfold holds, User.model_dump. by repeat split. Qed.

Lemma model_validate_holds d u :
  holds d u -> canonical u -> User.model_validate d = Ok u.
Proof.
  intros (Hu & He & Hf & Ha & Hs & Hr) (Cw & Cl & Ce & Ces & Cf & Cfl & Cr & Cn).
  apply model_validate_ok. split; [|done].
  apply validate_fields_ok. repeat split.
  - rewrite (username_field_str _ _ Hu), (strip_word _ Cw), Cw.
    destruct Cl as [C1 C2].
    apply Nat.ltb_ge in C1, C2. by rewrite C1, C2.
  - unfold User.email_field, required, User.email_schema. rewrite He. simpl.
    by rewrite Ces, Ce.
  - unfold User.full_name_field, with_default. rewrite Hf. simpl.
    rewrite Cf. apply Nat.ltb_ge in Cfl. by rewrite Cfl.
  - unfold User.is_active_field, with_default. rewrite Ha.
    by rewrite validate_bool_bool.
  - unfold User.signup_ts_field, with_default. rewrite Hs.
    destruct (User.signup_ts u); [|done].
    by rewrite validate_datetime_datetime.
  - unfold User.roles_field, with_default, list_str_schema. rewrite Hr.
    rewrite list_items_stripped.
    + simpl. unfold User.validate_user_roles. by rewrite validate_roles_ok.
    + eapply Forall_impl; [exact Cr|]. intros x. apply allowed_strip.
Qed.

(** The projection of such a document is the public view of the user. *)
Lemma response_validate_holds d u :
  holds d u -> canonical u -> UserResponse.model_validate d = Ok (projection u).
Proof.
  intros (Hu & He & Hf & _ & _ & Hr) (_ & _ & Ce & _).
  unfold UserResponse.model_validate, UserResponse.validate_fields, required.
  rewrite Hu, He, Hf, Hr. simpl. unfold User.email_schema. simpl.
  rewrite Ce. simpl. by rewrite list_items_plain.
Qed.
End Revalidate.

(* ===================================================================== *)
(** ** The handlers on the collection in memory *)
(* ===================================================================== *)

Section HandlerFacts.
Context {P : Pydantic} {S : Type} {C : Collection S}.

(** When every record projects, the comprehension returns the projections
    and leaves the database alone. *)
Lemma validate_all_ok (users : list doc) (s : S) :
  Forall (fun d => is_ok (UserResponse.model_validate d) = true) users ->
  exists rs, validate_all users s = (Ok rs, s)
    /\ Forall2 (fun d r => UserResponse.model_validate d = Ok r) users rs.
Proof.
  induction 1 as [|d users Hd _ (rs & Hrs & Hall)]; [by exists []|].
  destruct (UserResponse.model_validate d) as [|r] eqn:E; [done|].
  exists (r :: rs). split; [|by constructor].
  simpl. unfold bind, validated. rewrite E. unfold ret at 1.
  by rewrite Hrs.
Qed.

(** Whatever the records, the comprehension never touches the database. *)
Lemma validate_all_state (users : list doc) (s : S) :
  snd (validate_all users s) = s.
Proof.
  induction users as [|d users IH]; [done|].
  simpl. unfold bind, validated.
  destruct (UserResponse.model_validate d); [done|]. unfold ret at 1.
  destruct (validate_all users s) as [[e|rs] s'] eqn:E; simpl in *; by subst.
Qed.
End HandlerFacts.

Section MemFacts.
Context {P : Pydantic} {O : SetOrder}.
Implicit Types (c : Mem.t) (d : doc) (u : User.t).

Lemma object_id_below c d : d ∈ c -> (Mem.object_id d < Mem.fresh_id c)%N.
Proof.
  unfold Mem.fresh_id. induction 1 as [d c|d d' c _ IH]; simpl; lia.
Qed.

Lemma stored_user_id d :
  stored_user d -> d !! "_id" = Some (VObjectId (Mem.object_id d)).
Proof.
  intros (n & u & -> & _). unfold Mem.object_id.
  by rewrite lookup_insert_eq.
Qed.

Lemma stored_user_holds d : stored_user d -> exists u, holds d u /\ canonical u.
Proof.
  intros (n & u & -> & Hu). exists u. split; [apply holds_model_dump|done].
Qed.

Lemma stored_user_projects d :
  stored_user d -> is_ok (UserResponse.model_validate d) = true.
Proof.
  intros (u & Hd & Hu)%stored_user_holds.
  by rewrite (response_validate_holds _ _ Hd Hu).
Qed.

(** No stored document carries the fresh identifier. *)
Lemma fresh_id_unused c :
  Forall stored_user c ->
  List.filter (Mem.matches (q_eq "_id" (VObjectId (Mem.fresh_id c)))) c = [].
Proof.
  intros Hc.
  assert (Forall (fun d => (Mem.object_id d < Mem.fresh_id c)%N) c) as Hlt.
  { apply Forall_forall. intros d Hd. by apply object_id_below. }
  generalize dependent (Mem.fresh_id c). intros k Hlt.
  induction Hc as [|d c Hd _ IH]; [done|].
  apply Forall_cons in Hlt as [Hk Hlt]. simpl.
  rewrite (stored_user_id _ Hd). simpl.
  destruct (N.eqb_spec (Mem.object_id d) k) as [E|_]; [lia|].
  simpl. by apply IH.
Qed.

Lemma filter_snoc (f : doc -> bool) c d :
  List.filter f (c ++ [d]) = List.filter f c ++ (if f d then [d] else []).
Proof. by rewrite List.filter_app. Qed.

(** Creation in memory: the user is appended under a fresh identifier and
    the user read back is returned. *)
Lemma mem_create_user u c :
  Forall stored_user c -> canonical u ->
  create_user u c =
    (Ok u, c ++ [<["_id" := VObjectId (Mem.fresh_id c)]> (User.model_dump u)]).
Proof.
  intros Hc Hu. unfold create_user, try_except, bind.
  unfold insert_one, find_one, Mem.collection, Mem.mem_insert_one.
  replace (User.model_dump u !! "_id") with (@None value) by done.
  unfold Mem.mem_find_one. rewrite filter_snoc, (fresh_id_unused _ Hc).
  replace (Mem.matches _ _) with true
    by (simpl; rewrite lookup_insert_eq; simpl; by rewrite N.eqb_refl).
  simpl. unfold validated.
  by rewrite (model_validate_holds _ u (holds_model_dump u _) Hu).
Qed.

Lemma Forall_remove_first (Q : doc -> Prop) f c :
  Forall Q c -> Forall Q (Mem.remove_first f c).
Proof.
  induction 1 as [|d c Hd Hc IH]; simpl; [done|].
  destruct (f d); [done|by constructor].
Qed.

Lemma post_users_state payload c :
  Forall stored_user c -> Forall stored_user (snd (post_users payload c)).
Proof.
  intros Hc. unfold post_users.
  destruct (User.model_validate payload) as [|u] eqn:E; [done|].
  apply model_validate_canonical in E.
  rewrite (mem_create_user _ _ Hc E). simpl.
  apply Forall_app. split; [done|]. constructor; [|done].
  by exists (Mem.fresh_id c), u.
Qed.

Lemma delete_users_state email c :
  Forall stored_user c -> Forall stored_user (snd (delete_users email c)).
Proof.
  intros Hc. unfold delete_users, delete_user, try_except, bind. simpl.
  unfold Mem.mem_find.
  destruct (List.filter _ c); simpl; [done|].
  by apply Forall_remove_first.
Qed.

(** Every reachable collection holds stored users only. *)
Lemma reachable_stored c : reachable c -> Forall stored_user c.
Proof.
  induction 1 as [|payload c _ IH|email c _ IH]; [done| |].
  - by apply post_users_state.
  - by apply delete_users_state.
Qed.

(** A search that matches the stored users it finds returns their
    projections. *)
Lemma mem_get_user search c d ds :
  Forall stored_user c ->
  List.filter (Mem.matches (q_or [q_eq "email" (VStr search);
                                  q_eq "username" (VStr search)])) c = d :: ds ->
  exists rs, get_user search c = (Ok rs, c)
    /\ Forall2 (fun d r => UserResponse.model_validate d = Ok r) (d :: ds) rs.
Proof.
  intros Hc Hfind.
  assert (Forall stored_user (d :: ds)) as Hds.
  { rewrite <- Hfind. apply Forall_forall. intros x Hx.
    apply list_elem_of_In, List.filter_In in Hx as [Hx _].
    rewrite Forall_forall in Hc. by apply Hc, list_elem_of_In. }
  destruct (validate_all_ok (d :: ds) c) as (rs & Hrs & Hall).
  { eapply Forall_impl; [exact Hds|]. apply stored_user_projects. }
  exists rs. split; [|done].
  unfold get_user, try_except, bind, find, Mem.collection, Mem.mem_find.
  rewrite Hfind, Hrs. by inversion Hall.
Qed.
End MemFacts.

(* ===================================================================== *)
(** ** The reference instances *)
(* ===================================================================== *)

Module ExamplesFacts.
Import Examples.

Lemma split_at_app e l d : split_at e = Some (l, d) -> e = l ++ 64%N :: d.
Proof.
  revert l. induction e as [|c e IH]; intros l; simpl; [done|].
  destruct (N.eqb_spec c 64) as [->|_]; [by intros [= <- <-]|].
  destruct (split_at e) as [[l' d']|]; [|done].
  intros [= <- <-]. simpl. f_equal. by apply IH.
Qed.

Lemma addr_char_not_ws c : addr_char c = true -> is_whitespace c = false.
Proof.
  unfold addr_char, UserValidation.word_char, is_whitespace. intros Hc.
  destruct (_ || _) eqn:E in |- *; [|done].
  exfalso. bool_arith.
Qed.

Lemma forallb_addr_no_ws l :
  forallb addr_char l = true ->
  forallb (fun c => negb (is_whitespace c)) l = true.
Proof.
  induction l as [|c l IH]; simpl; [done|].
  intros [Hc Hl]%andb_true_iff. rewrite (addr_char_not_ws _ Hc). by apply IH.
Qed.

Lemma simple_email_normal e e' :
  simple_email e = Ok e' -> simple_email e' = Ok e' /\ strip e' = e'.
Proof.
  unfold simple_email.
  destruct (split_at e) as [[l d]|] eqn:Hs; [|done].
  destruct l as [|a l]; [done|]. destruct d as [|b d]; [done|].
  destruct (forallb addr_char (a :: l) && forallb addr_char (b :: d)) eqn:Hf;
    [|done].
  intros [= <-]. rewrite Hs, Hf. split; [done|].
  apply andb_true_iff in Hf as [Hl Hd].
  apply strip_no_ws. rewrite (split_at_app _ _ _ Hs), forallb_app.
  rewrite (forallb_addr_no_ws _ Hl). simpl forallb at 1.
  change (is_whitespace 64) with false. simpl negb. simpl andb.
  by apply (forallb_addr_no_ws (b :: d)).
Qed.
End ExamplesFacts.

Module Instances.
Import Examples.

#[global] Instance pydantic : Pydantic := {|
  validate_email := simple_email;
  validate_bool := strict_bool;
  validate_datetime := strict_datetime;
  validation_error_str := fun errors =>
    of_N (N.of_nat (length errors)) ++ py " validation errors for User";
  validate_email_normal := ExamplesFacts.simple_email_normal;
  validate_bool_bool := fun b => eq_refl;
  validate_datetime_datetime := fun d => eq_refl
|}.

(** Sets iterated in the order their elements are given. *)
#[global] Instance order : SetOrder := {|
  set_order := fun l => l;
  set_order_perm := fun l _ => reflexivity l
|}.

(** Request bodies used below. *)
Definition alice : doc :=
  <["username" := VStr (py "alice01")]>
  (<["email" := VStr (py "alice@example.com")]> ∅).

Definition testuser : doc :=
  <["username" := VStr (py "testuser")]>
  (<["email" := VStr (py "test@example.com")]> ∅).

Definition anonymous : doc :=
  <["username" := VStr (py "anonymous")]>
  (<["email" := VStr (py "anon@example.com")]> ∅).
End Instances.

(* ===================================================================== *)
(** ** The response projection *)
(* ===================================================================== *)

Section ProjectionFacts.
Context {P : Pydantic} {S : Type} {C : Collection S}.

Lemma dom_response (r : UserResponse.t) :
  dom (UserResponse.model_dump r)
  = ({["username"; "email"; "full_name"; "roles"]} : gset string).
Proof.
  unfold UserResponse.model_dump.
  rewrite !dom_insert_L, dom_empty_L. set_solver.
Qed.

(** The list operation answers 200 with projections or 500 with a detail. *)
Lemma list_users_cases (s : S) :
  (exists l, fst (list_users s)
             = mk_response HTTP_200_OK (Array (UserResponse.model_dump <$> l)))
  \/ (exists detail, fst (list_users s)
                     = mk_response HTTP_500_INTERNAL_SERVER_ERROR (Detail detail)).
Proof.
  unfold list_users, get_users, try_except, bind.
  destruct (find q_all s) as [[e|users] s1]; [right; by eexists|].
  destruct (validate_all users s1) as [[e|l] s2]; [right; by eexists|].
  left. by exists l.
Qed.

(** The search operation answers 200 with projections, or an error. *)
Lemma search_users_cases (search : str) (s : S) :
  (exists l, fst (search_users search s)
             = mk_response HTTP_200_OK (Array (UserResponse.model_dump <$> l)))
  \/ (exists code detail, fst (search_users search s)
                          = mk_response code (Detail detail)).
Proof.
  unfold search_users, get_user, try_except, bind.
  destruct (find _ s) as [[e|users] s1].
  { right. destruct e; by do 2 eexists. }
  destruct (validate_all users s1) as [[e|l] s2].
  { right. destruct e; by do 2 eexists. }
  destruct l as [|r l]; [right; by do 2 eexists|].
  left. by exists (r :: l).
Qed.
End ProjectionFacts.

(* ===================================================================== *)
(** ** Properties of the handlers *)
(* ===================================================================== *)

Section HandlerClaims.
Context {P : Pydantic} {O : SetOrder} {S : Type} {C : Collection S}.

(** C9. Whatever the state of the user collection, the list operation
    either answers 200 with a list none of whose elements has an
    [is_active] or a [signup_ts] field, or fails with a 500 detail (and
    then returns no list at all). *)
Theorem list_users_never_internal_fields (s : S) :
  (exists a, fst (list_users s) = mk_response HTTP_200_OK (Array a)
     /\ Forall (fun o : doc => ("is_active" ∉ dom o) /\ ("signup_ts" ∉ dom o)) a)
  \/ (exists detail,
       fst (list_users s)
       = mk_response HTTP_500_INTERNAL_SERVER_ERROR (Detail detail)).
Proof.
  destruct (list_users_cases s) as [[l Hl]|Hs]; [left|by right].
  exists (UserResponse.model_dump <$> l). split; [done|].
  apply Forall_fmap, Forall_forall. intros r _. simpl.
  rewrite dom_response. split; by apply (bool_decide_unpack _).
Qed.

(** C3. A search by identifier string, or a deletion by e-mail, whose
    query matches no record fails with 404 and the fixed detail
    "No user found": the handler re-raises the not-found error as it is,
    and the client receives it with that status and detail. *)
Theorem not_found_passes_through (search email : str) (s s' : S) :
  (find (q_or [q_eq "email" (VStr search); q_eq "username" (VStr search)]) s
     = (Ok [], s') ->
   get_user search s
     = (Err (HTTPException HTTP_404_NOT_FOUND (py "No user found")), s')
   /\ search_users search s
     = (mk_response HTTP_404_NOT_FOUND (Detail (py "No user found")), s'))
  /\ (find (q_eq "email" (VStr email)) s = (Ok [], s') ->
      delete_user email s
        = (Err (HTTPException HTTP_404_NOT_FOUND (py "No user found")), s')
      /\ delete_users email s
        = (mk_response HTTP_404_NOT_FOUND (Detail (py "No user found")), s')).
Proof.
  split; intros Hfind.
  - assert (get_user search s
            = (Err (HTTPException HTTP_404_NOT_FOUND (py "No user found")), s'))
      as Hget by (unfold get_user, try_except, bind; by rewrite Hfind).
    split; [done|]. unfold search_users. by rewrite Hget.
  - assert (delete_user email s
            = (Err (HTTPException HTTP_404_NOT_FOUND (py "No user found")), s'))
      as Hdel by (unfold delete_user, try_except, bind; by rewrite Hfind).
    split; [done|]. unfold delete_users. by rewrite Hdel.
Qed.


(** The create handler when the record cannot be read back: the error it
    raises itself is caught by its own generic clause and raised anew with
    [str(err)] as the detail. *)
Lemma create_user_refetch_nothing (user : User.t) (id : value) (s s1 s2 : S) :
  insert_one (User.model_dump user) s = (Ok id, s1) ->
  find_one (q_eq "_id" id) s1 = (Ok None, s2) ->
  create_user user s
  = (Err (HTTPException HTTP_500_INTERNAL_SERVER_ERROR
            (exn_str (HTTPException HTTP_500_INTERNAL_SERVER_ERROR
                        (py "Failed to create user")))), s2).
Proof.
  intros Hi Hf. unfold create_user, try_except, bind. by rewrite Hi, Hf.
Qed.
End HandlerClaims.

(* ===================================================================== *)
(** ** Properties of validation at the create endpoint *)
(* ===================================================================== *)

Section ValidationClaims.
Context {P : Pydantic} {O : SetOrder} {S : Type} {C : Collection S}.
Import UserValidation.
Implicit Types (payload : doc) (s : S).







End ValidationClaims.

(* ===================================================================== *)
(** ** Creation followed by a search, on the collection in memory *)
(* ===================================================================== *)

Section MemClaims.
Context {P : Pydantic} {O : SetOrder}.
Import UserValidation.
Implicit Types (payload d : doc) (c : Mem.t) (u : User.t).

(** A valid body is stored under a fresh identifier and answered with 201
    and the user. *)
Lemma post_users_valid payload u c :
  Forall stored_user c -> User.model_validate payload = Ok u ->
  post_users payload c
  = (mk_response HTTP_201_CREATED (Object (User.model_dump u)),
     c ++ [<["_id" := VObjectId (Mem.fresh_id c)]> (User.model_dump u)]).
Proof.
  intros Hc Hv. unfold post_users. rewrite Hv.
  by rewrite (mem_create_user _ _ Hc (model_validate_canonical _ _ Hv)).
Qed.

Lemma matches_search d u search :
  holds d u -> search = User.username u \/ search = User.email u ->
  Mem.matches (q_or [q_eq "email" (VStr search);
                     q_eq "username" (VStr search)]) d = true.
Proof.
  intros (Hu & He & _) Hs. simpl. rewrite Hu, He. simpl.
  destruct Hs as [->| ->].
  - rewrite (bool_decide_eq_true_2 (User.username u = User.username u));
      [|done].
    by rewrite !orb_true_r.
  - by rewrite (bool_decide_eq_true_2 (User.email u = User.email u)).
Qed.

(** A search that matches a stored user answers 200 with a list that has
    the public view of that user. *)
Lemma search_users_finds c d u search :
  Forall stored_user c -> d ∈ c -> holds d u -> canonical u ->
  search = User.username u \/ search = User.email u ->
  exists l, search_users search c
            = (mk_response HTTP_200_OK (Array (UserResponse.model_dump <$> l)), c)
    /\ projection u ∈ l.
Proof.
  intros Hc Hd Hh Hu Hs.
  pose proof (matches_search _ _ _ Hh Hs) as Hm.
  assert (d ∈ List.filter
                (Mem.matches (q_or [q_eq "email" (VStr search);
                                    q_eq "username" (VStr search)])) c) as Hin.
  { apply list_elem_of_In, List.filter_In. split; [|done].
    by apply list_elem_of_In. }
  destruct (List.filter _ c) as [|d0 ds] eqn:Hf; [by apply elem_of_nil in Hin|].
  destruct (mem_get_user _ _ _ _ Hc Hf) as (rs & Hget & Hall).
  exists rs. split.
  - unfold search_users. by rewrite Hget.
  - destruct (proj1 (list_elem_of_lookup _ _) Hin) as [i Hi].
    destruct (Forall2_lookup_l _ _ _ _ _ Hall Hi) as (r & Hr & Hv).
    rewrite (response_validate_holds _ _ Hh Hu) in Hv.
    injection Hv as <-. by eapply list_elem_of_lookup_2.
Qed.

Lemma shows_projection u : shows (UserResponse.model_dump (projection u)) u.
Proof.
  unfold shows. split; [done|]. split; [done|]. split; [done|].
  split; [done|]. apply dom_response.
Qed.

(** C4. On every collection the application can have produced, a body
    that validates to a user is stored and answered with 201 and an object
    holding the fields of that user; a search by the user's username, and
    one by its e-mail, then answers 200 with an array holding an object
    whose username, e-mail, full name and roles are those of the user (and
    which has no other key). When the body has no full name the user's is
    empty, and when it has no roles the user's list is empty, in the stored
    document as in the answers. *)
Theorem create_then_search payload u c :
  reachable c -> User.model_validate payload = Ok u ->
  exists d created,
    post_users payload c
    = (mk_response HTTP_201_CREATED (Object created), c ++ [d])
    /\ holds created u
    /\ holds d u
    /\ (forall search,
          search = User.username u \/ search = User.email u ->
          exists a o,
            search_users search (c ++ [d])
            = (mk_response HTTP_200_OK (Array a), c ++ [d])
            /\ o ∈ a
            /\ o !! "username" = Some (VStr (User.username u))
            /\ o !! "email" = Some (VStr (User.email u))
            /\ o !! "full_name" = Some (VStr (User.full_name u))
            /\ o !! "roles" = Some (VList (VStr <$> User.roles u))
            /\ dom o = ({["username"; "email"; "full_name"; "roles"]}
                        : gset string))
    /\ (payload !! "full_name" = None -> User.full_name u = [])
    /\ (payload !! "roles" = None -> User.roles u = []).
Proof.
  intros Hc%reachable_stored Hv.
  pose proof (model_validate_canonical _ _ Hv) as Hu.
  set (d := <["_id" := VObjectId (Mem.fresh_id c)]> (User.model_dump u)).
  assert (Forall stored_user (c ++ [d])) as Hc'.
  { apply Forall_app. split; [done|]. constructor; [|done].
    by exists (Mem.fresh_id c), u. }
  exists d, (User.model_dump u). split; [by apply post_users_valid|].
  split; [unfold holds, User.model_dump; by repeat split|].
  split; [apply holds_model_dump|]. split; [|split].
  - intros search Hs.
    destruct (search_users_finds (c ++ [d]) d u search) as (l & Hl & Hin);
      [done|apply elem_of_app; right; left|apply holds_model_dump|done..|].
    exists (UserResponse.model_dump <$> l), (UserResponse.model_dump (projection u)).
    split; [done|]. split; [by apply list_elem_of_fmap_2|].
    apply shows_projection.
  - intros Hnone. apply model_validate_ok in Hv as [Hf _].
    apply validate_fields_ok in Hf as (_ & _ & Hf & _).
    unfold User.full_name_field, with_default in Hf. rewrite Hnone in Hf.
    by injection Hf.
  - intros Hnone. apply model_validate_ok in Hv as [Hf _].
    apply validate_fields_ok in Hf as (_ & _ & _ & _ & _ & Hf).
    unfold User.roles_field, with_default in Hf. rewrite Hnone in Hf.
    simpl in Hf. unfold User.validate_user_roles in Hf.
    destruct (validate_roles []) as [|r] eqn:E; [done|].
    apply validate_roles_inv in E as [-> _]. by injection Hf.
Qed.

End MemClaims.

(* ===================================================================== *)
(** ** The code at particular requests *)
(* ===================================================================== *)

Section Requests.
Import Instances UserValidation.

(** C1. After one user is created, the stored document has the identifier
    the database assigned, yet the element the list operation returns for
    it, and the one the search returns, has the four keys [username],
    [email], [full_name] and [roles] and no identifier under [_id] or
    [id]: the projection retains four fields, not five. *)
Theorem list_and_search_drop_identifier :
  let c : Mem.t := snd (post_users alice []) in
  exists d o,
    c = [d]
    /\ d !! "_id" = Some (VObjectId 1)
    /\ fst (list_users c) = mk_response HTTP_200_OK (Array [o])
    /\ fst (search_users (py "alice01") c) = mk_response HTTP_200_OK (Array [o])
    /\ dom o = ({["username"; "email"; "full_name"; "roles"]} : gset string)
    /\ ("_id" ∉ dom o)
    /\ ("id" ∉ dom o).
Proof.
  eexists _, _. split; [by vm_compute|]. split; [by vm_compute|].
  split; [by vm_compute|]. split; [by vm_compute|].
  split; [by vm_compute|].
  split; apply (bool_decide_unpack _); by vm_compute.
Qed.

(** C2. With a collection that returns nothing for the record just
    inserted, the create handler raises its 500 error "Failed to create
    user", catches it in its own generic clause and raises a new 500 whose
    detail is [str] of the first: the client receives "500: Failed to
    create user", not the original message. *)
Theorem create_inconsistency_is_rewrapped :
  exists user,
    User.model_validate testuser = Ok user
    /\ create_user user (Mock.mk [])
       = (Err (HTTPException 500 (py "500: Failed to create user")),
          Mock.mk [User.model_dump user])
    /\ fst (post_users testuser (Mock.mk []))
       = mk_response 500 (Detail (py "500: Failed to create user"))
    /\ py "500: Failed to create user" <> py "Failed to create user".
Proof.
  eexists. split; [by vm_compute|]. split; [by vm_compute|].
  split; [by vm_compute|]. by vm_compute.
Qed.

(** C5. The items handler returns the static list, but its router is not
    among the routes of the application: GET /items/ is answered with 404
    and the collection is not touched. Mounting the router under /items
    would make the same request reach the handler. *)
Theorem items_route_not_mounted :
  get_items = [ {[ "username" := VStr (py "Alice") ]};
                {[ "username" := VStr (py "Bob") ]} ]
  /\ dispatch app_routes GET (py "/items/") = NotFound
  /\ (forall (payload : doc) (c : Mem.t),
        serve app_routes GET (py "/items/") payload c
        = (mk_response HTTP_404_NOT_FOUND (Detail (py "Not Found")), c))
  /\ dispatch (app_routes ++ include_router (py "/items") items_router)
       GET (py "/items/") = Full ep_get_items [].
Proof.
  split; [done|]. split; [by vm_compute|]. split; [|by vm_compute].
  intros payload c. unfold serve.
  by replace (dispatch app_routes GET (py "/items/")) with NotFound
    by by vm_compute.
Qed.


End Requests.

(* ===================================================================== *)
(** ** The theorems at concrete requests *)
(* ===================================================================== *)

Section Witnesses.
Import Instances UserValidation.

(** Nobody is stored in the empty collection: search and deletion answer
    404. *)
Lemma not_found_passes_through_witness :
  (find (q_or [q_eq "email" (VStr (py "nobody"));
               q_eq "username" (VStr (py "nobody"))]) ([] : Mem.t)
     = (Ok [], [])
   /\ search_users (py "nobody") ([] : Mem.t)
      = (mk_response HTTP_404_NOT_FOUND (Detail (py "No user found")), []))
  /\ (find (q_eq "email" (VStr (py "nobody@example.com"))) ([] : Mem.t)
        = (Ok [], [])
      /\ delete_users (py "nobody@example.com") ([] : Mem.t)
         = (mk_response HTTP_404_NOT_FOUND (Detail (py "No user found")), [])).
Proof.
  destruct (not_found_passes_through (S := Mem.t) (py "nobody")
              (py "nobody@example.com") [] []) as [Hsearch Hdelete].
  split; (split; [reflexivity|]).
  - apply Hsearch. reflexivity.
  - apply Hdelete. reflexivity.
Defined.





(** Alice is created in the empty collection and found again by username
    and by e-mail, with the defaults for the omitted fields. *)
Lemma create_then_search_witness :
  let u := User.mk (py "alice01") (py "alice@example.com") [] true None [] in
  reachable ([] : Mem.t)
  /\ User.model_validate alice = Ok u
  /\ exists d created,
       post_users alice ([] : Mem.t)
       = (mk_response HTTP_201_CREATED (Object created), [d])
       /\ holds created u
       /\ holds d u
       /\ (forall search,
             search = User.username u \/ search = User.email u ->
             exists a o,
               search_users search [d]
               = (mk_response HTTP_200_OK (Array a), [d])
               /\ o ∈ a
               /\ o !! "username" = Some (VStr (User.username u))
               /\ o !! "email" = Some (VStr (User.email u))
               /\ o !! "full_name" = Some (VStr (User.full_name u))
               /\ o !! "roles" = Some (VList (VStr <$> User.roles u))
               /\ dom o = ({["username"; "email"; "full_name"; "roles"]}
                           : gset string))
       /\ User.full_name u = []
       /\ User.roles u = [].
Proof.
  split; [apply reachable_empty|]. split; [vm_compute; reflexivity|].
  destruct (create_then_search alice
              (User.mk (py "alice01") (py "alice@example.com") [] true None [])
              [] (reachable_empty (P := pydantic) (O := order)))
    as (d & created & Hpost & Hcreated & Hd & Hsearch & Hname & Hroles).
  - vm_compute. reflexivity.
  - exists d, created. split; [exact Hpost|]. split; [exact Hcreated|].
    split; [exact Hd|]. split; [exact Hsearch|].
    split; [apply Hname|apply Hroles]; reflexivity.
Defined.
End Witnesses.

(* ===================================================================== *)
(** ** A collection with canned answers *)
(* ===================================================================== *)

(** The collection as the tests mock it: every operation returns the answer
    it was set up with and records the call, so that what a handler asked
    for, and in which order, can be read off afterwards. *)
Module Stub.

Inductive call : Type :=
| InsertOne (d : doc)
| FindOne (q : query)
| Find (q : query)
| DeleteOne (q : query).

Record t : Type := mk {
  insert_answer : result exn value;
  find_one_answer : result exn (option doc);
  find_answer : result exn (list doc);
  delete_answer : result exn unit;
  calls : list call
}.

Definition record (c : call) (s : t) : t :=
  mk (insert_answer s) (find_one_answer s) (find_answer s) (delete_answer s)
    (calls s ++ [c]).

#[global] Instance collection : Collection t := {
  insert_one := fun d s => (insert_answer s, record (InsertOne d) s);
  find_one := fun q s => (find_one_answer s, record (FindOne q) s);
  find := fun q s => (find_answer s, record (Find q) s);
  delete_one := fun q s => (delete_answer s, record (DeleteOne q) s)
}.

(** A database that cannot be reached: every operation raises. *)
Definition down (msg : str) : t :=
  mk (Err (Exception msg)) (Err (Exception msg)) (Err (Exception msg))
    (Err (Exception msg)) [].

End Stub.

(* ===================================================================== *)
(** ** Error and edge behaviour of the handlers *)
(* ===================================================================== *)

Section HandlerEdges.
Context {P : Pydantic} {O : SetOrder} {S : Type} {C : Collection S}.
Implicit Types (s : S) (msg search email : str) (user : User.t).

(** X1. When the first call to the collection raises an ordinary exception,
    each of the four handlers answers 500 with the text of that exception
    as the detail, and does nothing more on the database. *)
Theorem database_error_is_server_error msg s s' :
  (find q_all s = (Err (Exception msg), s') ->
   list_users s
   = (mk_response HTTP_500_INTERNAL_SERVER_ERROR (Detail msg), s'))
  /\ (forall search,
        find (q_or [q_eq "email" (VStr search); q_eq "username" (VStr search)]) s
        = (Err (Exception msg), s') ->
        search_users search s
        = (mk_response HTTP_500_INTERNAL_SERVER_ERROR (Detail msg), s'))
  /\ (forall email,
        find (q_eq "email" (VStr email)) s = (Err (Exception msg), s') ->
        delete_users email s
        = (mk_response HTTP_500_INTERNAL_SERVER_ERROR (Detail msg), s'))
  /\ (forall payload user,
        User.model_validate payload = Ok user ->
        insert_one (User.model_dump user) s = (Err (Exception msg), s') ->
        post_users payload s
        = (mk_response HTTP_500_INTERNAL_SERVER_ERROR (Detail msg), s')).
Proof.
  split; [|split; [|split]].
  - intros Hf. unfold list_users, get_users, try_except, bind. by rewrite Hf.
  - intros search Hf. unfold search_users, get_user, try_except, bind.
    by rewrite Hf.
  - intros email Hf. unfold delete_users, delete_user, try_except, bind.
    by rewrite Hf.
  - intros payload user Hv Hi. unfold post_users. rewrite Hv.
    unfold create_user, try_except, bind. by rewrite Hi.
Qed.

(** X2. An empty collection is not an error for the list operation: when
    the query returns no record the answer is 200 with the empty list. *)
Theorem list_of_nothing_is_ok s s' :
  find q_all s = (Ok [], s') ->
  list_users s = (mk_response HTTP_200_OK (Array []), s').
Proof.
  intros Hf. unfold list_users, get_users, try_except, bind. by rewrite Hf.
Qed.

(** The comprehension fails as soon as one record does not project. *)
Lemma validate_all_err (users : list doc) (d : doc) s :
  d ∈ users -> is_ok (UserResponse.model_validate d) = false ->
  exists errors, validate_all users s = (Err (ValidationError errors), s).
Proof.
  intros Hd Hbad. induction users as [|d' users IH]; [by apply elem_of_nil in Hd|].
  simpl. unfold bind, validated.
  destruct (UserResponse.model_validate d') as [e|r] eqn:E; [by exists e|].
  unfold ret at 1. apply elem_of_cons in Hd as [->|Hd]; [by rewrite E in Hbad|].
  destruct (IH Hd) as [errors ->]. by exists errors.
Qed.

(** X3. One stored record that does not validate as a [UserResponse] makes
    the whole list operation, and every search that finds it, fail with 500
    and the rendered validation error as the detail; the search does not
    answer 404 or a partial list. *)
Theorem unprojectable_record_is_server_error (users : list doc) (d : doc) s s' :
  d ∈ users -> is_ok (UserResponse.model_validate d) = false ->
  (find q_all s = (Ok users, s') ->
   exists errors,
     list_users s
     = (mk_response HTTP_500_INTERNAL_SERVER_ERROR
          (Detail (validation_error_str errors)), s'))
  /\ (forall search,
        find (q_or [q_eq "email" (VStr search); q_eq "username" (VStr search)]) s
        = (Ok users, s') ->
        exists errors,
          search_users search s
          = (mk_response HTTP_500_INTERNAL_SERVER_ERROR
               (Detail (validation_error_str errors)), s')).
Proof.
  intros Hd Hbad. split.
  - intros Hf. destruct (validate_all_err users d s' Hd Hbad) as [errors He].
    exists errors. unfold list_users, get_users, try_except, bind.
    by rewrite Hf, He.
  - intros search Hf.
    destruct (validate_all_err users d s' Hd Hbad) as [errors He].
    exists errors. unfold search_users, get_user, try_except, bind.
    by rewrite Hf, He.
Qed.

(** What a handler may raise. *)
Definition raises_only {A} (codes : list N) (r : result exn A) : Prop :=
  match r with
  | Ok _ => True
  | Err (HTTPException c _) => c ∈ codes
  | Err _ => False
  end.

(** The comprehension raises validation errors only. *)
Lemma validate_all_raises (users : list doc) s (e : exn) s' :
  validate_all users s = (Err e, s') -> exists errors, e = ValidationError errors.
Proof.
  revert s'. induction users as [|u users IH]; intros s'; simpl; [done|].
  unfold bind, validated.
  destruct (UserResponse.model_validate u) as [errors|r].
  { intros [= <- _]. by exists errors. }
  unfold ret at 1.
  destruct (validate_all users s) as [[e'|l'] s3] eqn:E; [|done].
  intros [= -> _]. by eapply IH.
Qed.

(** X4. With a collection whose [find] and [delete_one] do not themselves
    raise an [HTTPException], the handlers raise nothing but
    [HTTPException]: the create handler with 422 or 500 (whatever the
    collection), the list handler with 500, the search and delete handlers
    with 404 or 500. *)
Theorem handlers_raise_http_errors_only s :
  (forall q s0 c detail,
     fst (find q s0) <> Err (HTTPException c detail)
     /\ fst (delete_one q s0) <> Err (HTTPException c detail)) ->
  (forall user, raises_only [422; 500]%N (fst (create_user user s)))
  /\ raises_only [500]%N (fst (get_users s))
  /\ (forall search, raises_only [404; 500]%N (fst (get_user search s)))
  /\ (forall email, raises_only [404; 500]%N (fst (delete_user email s))).
Proof.
  intros Hplain.
  assert (In422 : (422 ∈ [422; 500])%N) by left.
  assert (In500 : (500 ∈ [422; 500])%N) by (right; left).
  assert (In404' : (404 ∈ [404; 500])%N) by left.
  assert (In500' : (500 ∈ [404; 500])%N) by (right; left).
  assert (In500'' : (500 ∈ [500])%N) by left.
  split; [|split; [|split]].
  - intros user. unfold create_user, try_except, bind.
    destruct (insert_one _ s) as [[e|id] s1]; [by destruct e|].
    destruct (find_one _ s1) as [[e|[d|]] s2]; [by destruct e| |done].
    unfold validated. by destruct (User.model_validate d).
  - unfold get_users, try_except, bind.
    destruct (find q_all s) as [[e|users] s1]; [by destruct e|].
    destruct (validate_all users s1) as [[e|l] s2]; [by destruct e|done].
  - intros search. unfold get_user, try_except, bind.
    pose proof (Hplain (q_or [q_eq "email" (VStr search);
                              q_eq "username" (VStr search)]) s) as Hq.
    destruct (find _ s) as [[e|users] s1].
    { destruct e as [c d| |]; [|done..]. by destruct (Hq c d) as [Hq' _]. }
    destruct (validate_all users s1) as [[e|l] s2] eqn:E.
    { by destruct (validate_all_raises _ _ _ _ E) as [errors ->]. }
    by destruct l.
  - intros email. unfold delete_user, try_except, bind.
    pose proof (Hplain (q_eq "email" (VStr email))) as Hq.
    destruct (find _ s) as [[e|users] s1] eqn:Ef.
    { destruct e as [c d| |]; [|done..].
      destruct (Hq s c d) as [Hq' _]. by rewrite Ef in Hq'. }
    destruct users as [|u users]; [done|].
    destruct (delete_one _ s1) as [[e|[]] s2] eqn:E; [|done].
    destruct e as [c d| |]; [|done..].
    destruct (Hq s1 c d) as [_ Hq']. by rewrite E in Hq'.
Qed.
End HandlerEdges.

Section HandlerEffects.
Context {P : Pydantic} {O : SetOrder} {S : Type} {C : Collection S}.
Implicit Types (s : S) (search email : str) (user : User.t).

(** X5. The two read operations touch the database through one [find] and
    nothing else: the state they leave is the state that [find] leaves,
    whether they answer 200, 404 or 500. *)
Theorem reads_only_find s search :
  snd (list_users s) = snd (find q_all s)
  /\ snd (search_users search s)
     = snd (find (q_or [q_eq "email" (VStr search);
                        q_eq "username" (VStr search)]) s).
Proof.
  split.
  - unfold list_users, get_users, try_except, bind.
    destruct (find q_all s) as [[e|users] s1]; [by destruct e|].
    pose proof (validate_all_state users s1) as Hst.
    destruct (validate_all users s1) as [[e|l] s2]; simpl in *; subst;
      [by destruct e|done].
  - unfold search_users, get_user, try_except, bind.
    destruct (find _ s) as [[e|users] s1]; [by destruct e|].
    pose proof (validate_all_state users s1) as Hst.
    destruct (validate_all users s1) as [[e|l] s2]; simpl in *; subst;
      [by destruct e|by destruct l].
Qed.

(** X6. The create handler does not undo its insert. When the record is
    inserted and read back but what comes back does not validate as a
    [User], the answer is 422 with the rendered validation error, and the
    database stays as the insert and the read left it. *)
Theorem create_read_back_invalid user (id : value) (d : doc)
    (errors : list error_details) s s1 s2 :
  insert_one (User.model_dump user) s = (Ok id, s1) ->
  find_one (q_eq "_id" id) s1 = (Ok (Some d), s2) ->
  User.model_validate d = Err errors ->
  create_user user s
  = (Err (HTTPException HTTP_422_UNPROCESSABLE_ENTITY
            (validation_error_str errors)), s2).
Proof.
  intros Hi Hf Hv. unfold create_user, try_except, bind.
  by rewrite Hi, Hf; unfold validated; rewrite Hv.
Qed.

(** When the query of the delete handler finds at least one record and
    [delete_one] returns, the answer is 200 with the message naming the
    e-mail. *)
Lemma delete_found (email : str) (d : doc) (ds : list doc) s s1 s2 :
  find (q_eq "email" (VStr email)) s = (Ok (d :: ds), s1) ->
  delete_one (q_eq "email" (VStr email)) s1 = (Ok tt, s2) ->
  delete_users email s
  = (mk_response HTTP_200_OK
       (Object {[ "message" :=
                  VStr (py "User with email " ++ email
                        ++ py " deleted successfully") ]}), s2).
Proof.
  intros Hf Hd. unfold delete_users, delete_user, try_except, bind.
  by rewrite Hf, Hd.
Qed.
End HandlerEffects.

(* ===================================================================== *)
(** ** What the handlers ask of the collection *)
(* ===================================================================== *)

Section Traces.
Context {P : Pydantic} {O : SetOrder}.
Implicit Types (s : Stub.t) (email : str).

(** X7. The calls the delete handler makes, whatever the collection
    answers: one [find] with the e-mail filter, followed by one
    [delete_one] with the same filter exactly when [find] returned a
    non-empty list; it never deletes without a match and never inserts. *)
Theorem delete_user_calls email s :
  Stub.calls (snd (delete_user email s))
  = Stub.calls s
    ++ Stub.Find (q_eq "email" (VStr email))
       :: match Stub.find_answer s with
          | Ok (_ :: _) => [Stub.DeleteOne (q_eq "email" (VStr email))]
          | _ => []
          end.
Proof.
  unfold delete_user, try_except, bind. simpl.
  destruct (Stub.find_answer s) as [e|[|d ds]]; simpl.
  - by destruct e.
  - done.
  - destruct (Stub.delete_answer s) as [e|[]]; simpl; [destruct e|];
      unfold raise; simpl; by rewrite <- app_assoc.
Qed.

(** X8. The calls the create endpoint makes: none when the body does not
    validate; otherwise one [insert_one] with the dumped user, followed by
    one [find_one] on the identifier returned exactly when the insert
    returned one. *)
Theorem post_users_calls (payload : doc) s :
  Stub.calls (snd (post_users payload s))
  = Stub.calls s
    ++ match User.model_validate payload with
       | Err _ => []
       | Ok user =>
           Stub.InsertOne (User.model_dump user)
           :: match Stub.insert_answer s with
              | Ok id => [Stub.FindOne (q_eq "_id" id)]
              | Err _ => []
              end
       end.
Proof.
  unfold post_users.
  destruct (User.model_validate payload) as [errors|user];
    [by rewrite app_nil_r|].
  unfold create_user, try_except, bind. simpl.
  destruct (Stub.insert_answer s) as [e|id]; simpl; [by destruct e|].
  destruct (Stub.find_one_answer s) as [e|[d|]]; simpl.
  - destruct e; unfold raise; simpl; by rewrite <- app_assoc.
  - unfold validated. destruct (User.model_validate d);
      unfold raise, ret; simpl; by rewrite <- app_assoc.
  - unfold raise; simpl; by rewrite <- app_assoc.
Qed.
End Traces.

(* ===================================================================== *)
(** ** More on the schema *)
(* ===================================================================== *)

Section SchemaEdges.
Context {P : Pydantic} {O : SetOrder}.
Import UserValidation.
Implicit Types (d payload : doc) (u : User.t) (s : str).

Lemma holds_dump u : holds (User.model_dump u) u.
Proof. unfold holds, User.model_dump. by repeat split. Qed.

(** X9. Dumping a validated user and validating the dump gives the same
    user back, and the dump validates as a [UserResponse] to the four
    public fields of the user. *)
Theorem dump_validate_round_trip payload u :
  User.model_validate payload = Ok u ->
  User.model_validate (User.model_dump u) = Ok u
  /\ UserResponse.model_validate (User.model_dump u) = Ok (projection u).
Proof.
  intros Hu%model_validate_canonical. split.
  - by apply model_validate_holds; [apply holds_dump|].
  - by apply response_validate_holds; [apply holds_dump|].
Qed.

Lemma match_tail_spec s :
  match_tail s = true <->
  forallb word_char s = true
  \/ exists w, forallb word_char w = true /\ s = w ++ [10%N].
Proof.
  induction s as [|c s IH]; simpl.
  - split; [by left|done].
  - destruct (word_char c) eqn:Ec; simpl.
    + rewrite IH. split.
      * intros [Hs|(w & Hw & ->)]; [by left|right].
        exists (c :: w). simpl. by rewrite Ec, Hw.
      * intros [Hs|(w & Hw & Hcw)]; [by left|right].
        destruct w as [|c' w]; simpl in Hcw; injection Hcw as -> ->.
        { by vm_compute in Ec. }
        simpl in Hw. apply andb_true_iff in Hw as [_ Hw]. by exists w.
    + split.
      * intros [Hc Hs]%andb_true_iff. apply N.eqb_eq in Hc as ->.
        destruct s; [|done]. right. by exists [].
      * intros [Hs|(w & Hw & Hcw)]; [done|].
        destruct w as [|c' w]; simpl in Hcw; injection Hcw as -> ->.
        { by rewrite N.eqb_refl. }
        simpl in Hw. by rewrite Ec in Hw.
Qed.

(** X10. The username format check accepts exactly the strings made of one
    or more characters of [[A-Za-z0-9_]], optionally followed by one final
    newline (the [$] of the pattern matches before it); it returns the
    string as it is, newline included, and rejects every other string with
    the fixed message. *)
Theorem username_format_accepts s :
  (word s = true \/ (exists w, word w = true /\ s = w ++ [10%N]) ->
   validate_username_format s = Ok s)
  /\ (~ (word s = true \/ exists w, word w = true /\ s = w ++ [10%N]) ->
      validate_username_format s
      = Err (py "Username must be alphanumeric with underscores only")).
Proof.
  assert (match_USERNAME_PATTERN s = true <->
          word s = true \/ exists w, word w = true /\ s = w ++ [10%N]) as Hspec.
  { destruct s as [|c s]; simpl.
    - split; [done|]. intros [?|(w & Hw & Hs)]; [done|]. by destruct w.
    - rewrite andb_true_iff, match_tail_spec. split.
      + intros [Hc [Hs|(w & Hw & ->)]]; [left; by rewrite Hc|right].
        exists (c :: w). simpl. by rewrite Hc, Hw.
      + intros [[Hc Hs]%andb_true_iff|(w & Hw & Hcw)]; [by auto|].
        destruct w as [|c' w]; [done|]. simpl in Hw, Hcw.
        injection Hcw as -> ->.
        apply andb_true_iff in Hw as [Hc Hw]. split; [done|]. right.
        by exists w. }
  unfold validate_username_format. split.
  - intros Hs%Hspec. by rewrite Hs.
  - intros Hs. destruct (match_USERNAME_PATTERN s) eqn:E; [|done].
    by destruct Hs; apply Hspec.
Qed.

(** The errors of a field are one or more, each located at the field. *)
Definition located {A} (k : string) (r : vres A) : Prop :=
  match r with
  | Ok _ => True
  | Err e => e <> [] /\ Forall (fun x => exists rest, loc x = LKey k :: rest) e
  end.

Lemma located_at_loc {A} k (r : result error_type A) :
  located k (at_loc [LKey k] r).
Proof.
  destruct r as [t|a]; simpl; [|done]. split; [done|].
  constructor; [by exists []|done].
Qed.

Lemma located_required {A} d k (f : value -> vres A) :
  (forall v, located k (f v)) -> located k (required d k f).
Proof.
  intros Hf. unfold required. destruct (d !! k); [done|]. simpl.
  split; [done|]. constructor; [by exists []|done].
Qed.

Lemma located_with_default {A} d k (a : A) (f : value -> vres A) :
  (forall v, located k (f v)) -> located k (with_default d k a f).
Proof. intros Hf. unfold with_default. by destruct (d !! k). Qed.

Lemma located_field_validator {A} k (f : A -> result str A) (r : vres A) :
  located k r -> located k (field_validator k f r).
Proof.
  destruct r as [e|a]; simpl; [done|]. intros _.
  destruct (f a); simpl; [|done]. split; [done|].
  constructor; [by exists []|done].
Qed.

Lemma located_list_items b k i (l : list value) :
  located k (list_items b k i l).
Proof.
  revert i. induction l as [|v l IH]; intros i; simpl; [done|].
  specialize (IH (S i)).
  destruct (str_schema b None None v) as [t|x]; simpl.
  - split; [done|]. constructor; [by eexists|].
    destruct (list_items b k (S i) l); simpl in *; [by destruct IH|done].
  - destruct (list_items b k (S i) l); simpl in *; [done|done].
Qed.

Lemma located_fields d :
  located "username" (User.username_field d)
  /\ located "email" (User.email_field d)
  /\ located "full_name" (User.full_name_field d)
  /\ located "is_active" (User.is_active_field d)
  /\ located "signup_ts" (User.signup_ts_field d)
  /\ located "roles" (User.roles_field d).
Proof.
  repeat split.
  - apply located_field_validator, located_required. intros v.
    apply located_at_loc.
  - apply located_required. intros v. apply located_at_loc.
  - apply located_with_default. intros v. apply located_at_loc.
  - apply located_with_default. intros v. apply located_at_loc.
  - apply located_with_default. intros v. apply located_at_loc.
  - apply located_field_validator, located_with_default. intros v.
    unfold list_str_schema. destruct v; try apply (located_at_loc "roles" (Err list_type)).
    apply located_list_items.
Qed.

(** X11. A failed validation carries at least one entry. When some field
    fails, the entries are the errors of the fields, each located at one of
    the six fields, and the cross-field rule is not evaluated; the
    cross-field error (located at the model) is reported only when every
    field passed, and then it is the only entry. *)
Theorem validation_error_shape payload (errors : list error_details) :
  User.model_validate payload = Err errors ->
  errors <> []
  /\ ((exists u, User.validate_fields payload = Ok u
         /\ errors = [mk_error []
                        (value_error
                           (py "Either full_name or a non-anonymous username must be provided"))])
      \/ (User.validate_fields payload = Err errors
          /\ Forall (fun x => exists k rest,
                       loc x = LKey k :: rest
                       /\ k ∈ ["username"; "email"; "full_name"; "is_active";
                               "signup_ts"; "roles"]) errors)).
Proof.
  unfold User.model_validate.
  destruct (User.validate_fields payload) as [e|u] eqn:E.
  - intros [= <-].
    destruct (validate_fields_err payload) as [[u Hu]|He]; [congruence|].
    rewrite E in He. injection He as ->.
    destruct (located_fields payload) as (H1 & H2 & H3 & H4 & H5 & H6).
    assert (forall A k (r : vres A), located k r ->
              k ∈ ["username"; "email"; "full_name"; "is_active";
                   "signup_ts"; "roles"] ->
              Forall (fun x => exists k rest,
                        loc x = LKey k :: rest
                        /\ k ∈ ["username"; "email"; "full_name"; "is_active";
                                "signup_ts"; "roles"]) (errors_of r)) as Hloc.
    { intros A k r Hr Hk. destruct r as [e|a]; simpl; [|done].
      destruct Hr as [_ Hr]. eapply Forall_impl; [exact Hr|].
      intros x [rest Hx]. by exists k, rest. }
    split.
    + unfold User.validate_fields in E.
      destruct (User.username_field payload), (User.email_field payload),
        (User.full_name_field payload), (User.is_active_field payload),
        (User.signup_ts_field payload), (User.roles_field payload);
        simpl in *; try done;
        repeat match goal with H : _ /\ _ |- _ => destruct H end;
        intros Hnil; repeat (apply app_eq_nil in Hnil as [? Hnil]); done.
    + right. split; [done|]. rewrite !Forall_app.
      repeat split; eapply Hloc; try eassumption; set_unfold; tauto.
  - unfold User.validate_name_requirements.
    destruct (_ && _); [|done]. intros [= <-]. split; [done|]. left.
    by exists u.
Qed.
End SchemaEdges.

(* ===================================================================== *)
(** ** How the operations compose, on the collection in memory *)
(* ===================================================================== *)

Section MemComposition.
Context {P : Pydantic} {O : SetOrder}.
Implicit Types (payload d : doc) (c : Mem.t) (u : User.t) (search email : str).

Lemma remove_first_split (f : doc -> bool) c d :
  d ∈ c -> f d = true ->
  exists before x after,
    c = before ++ x :: after /\ f x = true
    /\ Forall (fun y => f y = false) before
    /\ Mem.remove_first f c = before ++ after.
Proof.
  intros Hd Hf. induction c as [|y c IH]; [by apply elem_of_nil in Hd|].
  simpl. destruct (f y) eqn:Ey.
  - by exists [], y, c.
  - apply elem_of_cons in Hd as [->|Hd]; [congruence|].
    destruct (IH Hd) as (before & x & after & -> & Hx & Hb & Hr).
    exists (y :: before), x, after. rewrite Hr. by repeat split; [|constructor].
Qed.

(** X12. When some record matches the e-mail filter, the delete operation
    answers 200 with the message naming the e-mail and removes exactly one
    record: the first one that matches. Every other record, those with the
    same e-mail included, stays, in order. *)
Theorem delete_removes_first_match email c d :
  d ∈ c -> Mem.matches (q_eq "email" (VStr email)) d = true ->
  exists before x after,
    c = before ++ x :: after
    /\ Mem.matches (q_eq "email" (VStr email)) x = true
    /\ Forall (fun y => Mem.matches (q_eq "email" (VStr email)) y = false) before
    /\ delete_users email c
       = (mk_response HTTP_200_OK
            (Object {[ "message" :=
                       VStr (py "User with email " ++ email
                             ++ py " deleted successfully") ]}),
          before ++ after).
Proof.
  intros Hd Hm.
  destruct (remove_first_split _ c d Hd Hm)
    as (before & x & after & Hc & Hx & Hb & Hr).
  exists before, x, after. repeat split; [done..|].
  assert (d ∈ List.filter (Mem.matches (q_eq "email" (VStr email))) c) as Hin.
  { apply list_elem_of_In, List.filter_In. split; [|done].
    by apply list_elem_of_In. }
  unfold delete_users, delete_user, try_except, bind, find, delete_one,
    Mem.collection, Mem.mem_find, Mem.mem_delete_one.
  destruct (List.filter _ c) as [|d0 ds]; [by apply elem_of_nil in Hin|].
  by rewrite Hr.
Qed.

Lemma first_match_unique (f : doc -> bool) (l1 l2 l3 : list doc) (d y : doc) :
  Forall (fun z => f z = false) l1 -> f d = true ->
  Forall (fun z => f z = false) l2 -> f y = true ->
  l1 ++ [d] = l2 ++ y :: l3 -> l2 ++ l3 = l1.
Proof.
  intros H1 Hd. revert l2. induction H1 as [|a l1 Ha _ IH]; intros l2 H2 Hy Heq.
  - destruct l2 as [|b l2].
    + by injection Heq as <- <-.
    + injection Heq as <- Heq. by destruct l2.
  - destruct l2 as [|b l2].
    + injection Heq as <- _. congruence.
    + injection Heq as <- Heq. apply Forall_cons in H2 as [_ H2].
      simpl. f_equal. by apply IH.
Qed.

(** X13. Creating a user whose e-mail no stored record has and then
    deleting by that e-mail gives back the collection as it was. *)
Theorem create_then_delete payload u c :
  reachable c -> User.model_validate payload = Ok u ->
  Forall (fun d => Mem.matches (q_eq "email" (VStr (User.email u))) d = false) c ->
  delete_users (User.email u) (snd (post_users payload c))
  = (mk_response HTTP_200_OK
       (Object {[ "message" :=
                  VStr (py "User with email " ++ User.email u
                        ++ py " deleted successfully") ]}), c).
Proof.
  intros Hc%reachable_stored Hv Hnone.
  rewrite (post_users_valid _ _ _ Hc Hv). simpl.
  set (d := <["_id" := VObjectId (Mem.fresh_id c)]> (User.model_dump u)).
  assert (Mem.matches (q_eq "email" (VStr (User.email u))) d = true) as Hm.
  { destruct (holds_model_dump u (VObjectId (Mem.fresh_id c))) as (_ & He & _).
    fold d in He. simpl. rewrite He. simpl.
    by rewrite (bool_decide_eq_true_2 (User.email u = User.email u)). }
  destruct (delete_removes_first_match (User.email u) (c ++ [d]) d)
    as (before & x & after & Hsplit & Hx & Hb & ->);
    [apply elem_of_app; right; left|done|].
  f_equal.
  exact (first_match_unique (Mem.matches (q_eq "email" (VStr (User.email u))))
           c before after d x Hnone Hm Hb Hx Hsplit).
Qed.




(** The users of stored documents, in the order of the documents. *)
Lemma stored_users (ds : list doc) :
  Forall stored_user ds ->
  exists us, Forall2 (fun d u => holds d u /\ canonical u) ds us.
Proof.
  induction 1 as [|d ds Hd _ [us IH]]; [by exists []|].
  destruct (stored_user_holds d Hd) as (u & Hh & Hu).
  exists (u :: us). by constructor.
Qed.

Lemma validate_all_users (ds : list doc) (us : list User.t) c :
  Forall2 (fun d u => holds d u /\ canonical u) ds us ->
  validate_all ds c = (Ok (projection <$> us), c).
Proof.
  induction 1 as [|d u ds us [Hh Hu] _ IH]; [done|].
  simpl. unfold bind, validated.
  rewrite (response_validate_holds _ _ Hh Hu). unfold ret at 1.
  by rewrite IH.
Qed.

Lemma shows_all (us : list User.t) :
  Forall2 shows (UserResponse.model_dump <$> (projection <$> us)) us.
Proof.
  induction us as [|u us IH]; [constructor|].
  constructor; [apply shows_projection|exact IH].
Qed.


(** X15. On every collection the application can have produced, the list
    operation does not fail: it answers 200 with an array of one object per
    stored record, in the order of insertion, each with the username,
    e-mail, full name and roles of the user stored there and no other key,
    and leaves the collection as it is. *)
Theorem list_returns_every_user c :
  reachable c ->
  exists (us : list User.t) (a : list doc),
    list_users c = (mk_response HTTP_200_OK (Array a), c)
    /\ Forall2 (fun d u => holds d u /\ canonical u) c us
    /\ Forall2 shows a us.
Proof.
  intros Hc%reachable_stored.
  assert (find q_all c = (Ok c, c)) as Hall.
  { unfold find, Mem.collection, Mem.mem_find. f_equal. f_equal.
    clear. induction c as [|d c IH]; [done|]. simpl in *. by rewrite IH. }
  destruct (stored_users _ Hc) as [us Hus].
  exists us, (UserResponse.model_dump <$> (projection <$> us)).
  split; [|split; [done|apply shows_all]].
  unfold list_users, get_users, try_except, bind.
  by rewrite Hall, (validate_all_users _ _ c Hus).
Qed.

(** X16. The create operation does not check for an existing user: posting
    the same valid body twice is answered with 201 both times and stores
    two documents holding the same user under different identifiers. *)
Theorem create_twice_stores_twice payload u c :
  reachable c -> User.model_validate payload = Ok u ->
  exists d1 d2,
    post_users payload c
    = (mk_response HTTP_201_CREATED (Object (User.model_dump u)), c ++ [d1])
    /\ post_users payload (c ++ [d1])
       = (mk_response HTTP_201_CREATED (Object (User.model_dump u)),
          c ++ [d1; d2])
    /\ holds d1 u /\ holds d2 u
    /\ d1 !! "_id" <> d2 !! "_id".
Proof.
  intros Hc%reachable_stored Hv.
  pose proof (model_validate_canonical _ _ Hv) as Hu.
  set (d1 := <["_id" := VObjectId (Mem.fresh_id c)]> (User.model_dump u)).
  assert (Forall stored_user (c ++ [d1])) as Hc1.
  { apply Forall_app. split; [done|]. constructor; [|done].
    by exists (Mem.fresh_id c), u. }
  exists d1, (<["_id" := VObjectId (Mem.fresh_id (c ++ [d1]))]> (User.model_dump u)).
  split; [by apply post_users_valid|]. split.
  - etrans; [exact (post_users_valid _ _ _ Hc1 Hv)|]. by rewrite <- app_assoc.
  - split; [apply holds_model_dump|]. split; [apply holds_model_dump|].
    assert (Mem.object_id d1 < Mem.fresh_id (c ++ [d1]))%N as Hlt.
    { apply object_id_below, elem_of_app. right. left. }
    assert (Mem.object_id d1 = Mem.fresh_id c) as Hid.
    { unfold Mem.object_id, d1. by rewrite lookup_insert_eq. }
    assert (d1 !! "_id" = Some (VObjectId (Mem.fresh_id c))) as ->.
    { unfold d1. by rewrite lookup_insert_eq. }
    rewrite lookup_insert_eq. intros [= Heq]. lia.
Qed.
End MemComposition.

(* ===================================================================== *)
(** ** The route table *)
(* ===================================================================== *)

Section Routes.
Context {P : Pydantic} {O : SetOrder} {S : Type} {C : Collection S}.

(** A final parameter takes the whole rest of a path that has no slash. *)
Lemma match_param name (s : str) :
  s <> [] -> forallb (fun c => negb (c =? 47)%N) s = true ->
  match_path [Param name] s = Some [(name, s)].
Proof.
  intros Hne Hs. cbn [match_path].
  match goal with
  | |- ?f [] s = _ =>
      assert (forall rest taken,
                forallb (fun c => negb (c =? 47)%N) rest = true ->
                taken ++ rest <> [] ->
                f taken rest = Some [(name, taken ++ rest)]) as Hgen
  end.
  { induction rest as [|c rest IH]; intros taken Hr Ht.
    - rewrite app_nil_r in *. by destruct taken.
    - simpl in Hr. apply andb_true_iff in Hr as [Hc Hr].
      apply negb_true_iff in Hc. rewrite Hc.
      rewrite (IH (taken ++ [c]) Hr); [by rewrite <- app_assoc|].
      by destruct taken. }
  by apply (Hgen s []).
Qed.

(** X17. The paths under /users/. POST /users/ reaches the create
    endpoint with the body and GET /users/ the list operation. For every
    non-empty string without a slash, DELETE /users/<string> reaches the
    deletion with that string as the argument, and GET /users/<string>
    reaches the search with that string, unless the string is a single
    newline: GET /users/ followed by a newline is taken by the list route,
    which is registered first and whose end matches before the newline. *)
Theorem users_paths_reach_their_handlers (s : str) (payload : doc) (st : S) :
  s <> [] -> forallb (fun c => negb (c =? 47)%N) s = true ->
  serve app_routes POST (py "/users/") payload st = post_users payload st
  /\ serve app_routes GET (py "/users/") payload st = list_users st
  /\ (s <> [10%N] ->
      serve app_routes GET (py "/users/" ++ s) payload st = search_users s st)
  /\ serve app_routes GET (py "/users/" ++ [10%N]) payload st = list_users st
  /\ serve app_routes DELETE (py "/users/" ++ s) payload st = delete_users s st.
Proof.
  intros Hne Hs.
  assert (match_path [Lit (py "/users/"); Param "search"] (py "/users/" ++ s)
          = Some [("search", s)]) as Hsearch.
  { change (match_path [Lit (py "/users/"); Param "search"] (py "/users/" ++ s))
      with (match_path [Param "search"] s). by apply match_param. }
  assert (match_path [Lit (py "/users/"); Param "email"] (py "/users/" ++ s)
          = Some [("email", s)]) as Hemail.
  { change (match_path [Lit (py "/users/"); Param "email"] (py "/users/" ++ s))
      with (match_path [Param "email"] s). by apply match_param. }
  assert (match_path [Lit (py "/")] (py "/users/" ++ s) = None) as Hroot
    by reflexivity.
  split; [reflexivity|]. split; [reflexivity|]. split; [|split; [reflexivity|]].
  - intros Hnl.
    assert (match_path [Lit (py "/users/")] (py "/users/" ++ s) = None) as Hlist.
    { change (match_path [Lit (py "/users/")] (py "/users/" ++ s))
        with (match_path [] s).
      destruct s as [|c [|c' s']]; [done| |done]. simpl.
      destruct (N.eqb_spec c 10) as [->|_]; [done|done]. }
    unfold serve, dispatch, app_routes, first_full.
    cbn [route_path route_method route_endpoint].
    rewrite Hroot, Hlist, Hsearch. reflexivity.
  - unfold serve, dispatch, app_routes, first_full.
    cbn [route_path route_method route_endpoint].
    rewrite Hroot, Hsearch, Hemail.
    by destruct (match_path [Lit (py "/users/")] (py "/users/" ++ s)).
Qed.
End Routes.

(* ===================================================================== *)
(** ** The further theorems at concrete requests *)
(* ===================================================================== *)

Section MoreWitnesses.
Import Instances UserValidation.

(** A collection of one user, Alice. *)
Definition one_user : Mem.t := snd (post_users alice []).

Lemma reachable_one_user : reachable one_user.
Proof. apply reachable_post, reachable_empty. Defined.

(** With the database down, list, search, delete and create answer 500
    "Database error". *)
Lemma database_error_is_server_error_witness :
  let s := Stub.down (py "Database error") in
  let s' := Stub.record (Stub.Find q_all) s in
  find q_all s = (Err (Exception (py "Database error")), s')
  /\ list_users s
     = (mk_response HTTP_500_INTERNAL_SERVER_ERROR (Detail (py "Database error")),
        s').
Proof.
  split; [reflexivity|].
  apply (database_error_is_server_error (S := Stub.t) (py "Database error")).
  reflexivity.
Defined.

Lemma list_of_nothing_is_ok_witness :
  find q_all ([] : Mem.t) = (Ok [], [])
  /\ list_users ([] : Mem.t) = (mk_response HTTP_200_OK (Array []), []).
Proof.
  split; [reflexivity|].
  apply (list_of_nothing_is_ok (S := Mem.t)). reflexivity.
Defined.

(** A stored record with a username only: listing fails with 500. *)
Lemma unprojectable_record_is_server_error_witness :
  let bob : doc := {[ "username" := VStr (py "bob") ]} in
  is_ok (UserResponse.model_validate bob) = false
  /\ exists errors,
       list_users ([bob] : Mem.t)
       = (mk_response HTTP_500_INTERNAL_SERVER_ERROR
            (Detail (validation_error_str errors)), [bob]).
Proof.
  split; [reflexivity|].
  apply (unprojectable_record_is_server_error (S := Mem.t)
           [ {[ "username" := VStr (py "bob") ]} ]
           {[ "username" := VStr (py "bob") ]}
           [ {[ "username" := VStr (py "bob") ]} ]
           [ {[ "username" := VStr (py "bob") ]} ]);
    [left|reflexivity|reflexivity].
Defined.

Lemma handlers_raise_http_errors_only_witness :
  (forall q (s0 : Mem.t) c detail,
     fst (find q s0) <> Err (HTTPException c detail)
     /\ fst (delete_one q s0) <> Err (HTTPException c detail))
  /\ raises_only [500]%N (fst (get_users one_user))
  /\ raises_only [404; 500]%N (fst (get_user (py "nobody") one_user)).
Proof.
  assert (forall q (s0 : Mem.t) c detail,
            fst (find q s0) <> Err (HTTPException c detail)
            /\ fst (delete_one q s0) <> Err (HTTPException c detail)) as Hplain.
  { intros q s0 c detail. split; discriminate. }
  split; [exact Hplain|].
  destruct (handlers_raise_http_errors_only (S := Mem.t) one_user Hplain)
    as (_ & Hlist & Hsearch & _).
  split; [exact Hlist|apply Hsearch].
Defined.

(** The collection hands back an empty document: 422, after the insert. *)
Lemma create_read_back_invalid_witness :
  let s := Stub.mk (Ok (VStr (py "mock_id"))) (Ok (Some ∅)) (Ok []) (Ok tt) [] in
  let user := User.mk (py "testuser") (py "test@example.com") [] true None [] in
  User.model_validate ∅
  = Err [mk_error [LKey "username"] missing; mk_error [LKey "email"] missing]
  /\ create_user user s
     = (Err (HTTPException HTTP_422_UNPROCESSABLE_ENTITY
               (validation_error_str
                  [mk_error [LKey "username"] missing;
                   mk_error [LKey "email"] missing])),
        Stub.record (Stub.FindOne (q_eq "_id" (VStr (py "mock_id"))))
          (Stub.record (Stub.InsertOne (User.model_dump user)) s)).
Proof.
  split; [reflexivity|].
  eapply (create_read_back_invalid (S := Stub.t) _ (VStr (py "mock_id")) ∅);
    reflexivity.
Defined.

Lemma dump_validate_round_trip_witness :
  let u := User.mk (py "alice01") (py "alice@example.com") [] true None [] in
  User.model_validate alice = Ok u
  /\ User.model_validate (User.model_dump u) = Ok u
  /\ UserResponse.model_validate (User.model_dump u) = Ok (projection u).
Proof.
  split; [vm_compute; reflexivity|].
  apply (dump_validate_round_trip alice). vm_compute. reflexivity.
Defined.

(** "abc" followed by a newline is accepted as it is; "a b" is rejected. *)
Lemma username_format_accepts_witness :
  validate_username_format (py "abc" ++ [10%N]) = Ok (py "abc" ++ [10%N])
  /\ validate_username_format (py "a b")
     = Err (py "Username must be alphanumeric with underscores only").
Proof.
  split.
  - apply (username_format_accepts (py "abc" ++ [10%N])). right.
    exists (py "abc"). split; reflexivity.
  - apply (username_format_accepts (py "a b")).
    intros [Hw|(w & Hw & Hs)]; [discriminate|].
    destruct w as [|a [|b [|c [|? ?]]]]; try discriminate.
Defined.

Lemma validation_error_shape_witness :
  User.model_validate anonymous
  = Err [mk_error []
           (value_error
              (py "Either full_name or a non-anonymous username must be provided"))]
  /\ [mk_error []
        (value_error
           (py "Either full_name or a non-anonymous username must be provided"))]
     <> [].
Proof.
  split; [vm_compute; reflexivity|].
  apply (validation_error_shape anonymous). vm_compute. reflexivity.
Defined.

(** Alice is deleted from the collection that holds only her. *)
Lemma delete_removes_first_match_witness :
  exists d, one_user = [d]
    /\ Mem.matches (q_eq "email" (VStr (py "alice@example.com"))) d = true
    /\ exists before x after,
         one_user = before ++ x :: after
         /\ Mem.matches (q_eq "email" (VStr (py "alice@example.com"))) x = true
         /\ Forall (fun y => Mem.matches
                               (q_eq "email" (VStr (py "alice@example.com"))) y
                             = false) before
         /\ delete_users (py "alice@example.com") one_user
            = (mk_response HTTP_200_OK
                 (Object {[ "message" :=
                            VStr (py "User with email " ++ py "alice@example.com"
                                  ++ py " deleted successfully") ]}),
               before ++ after).
Proof.
  eexists. split; [vm_compute; reflexivity|]. split; [vm_compute; reflexivity|].
  eapply (delete_removes_first_match (py "alice@example.com") one_user);
    [vm_compute; left|vm_compute; reflexivity].
Defined.

Lemma create_then_delete_witness :
  let u := User.mk (py "alice01") (py "alice@example.com") [] true None [] in
  reachable ([] : Mem.t)
  /\ User.model_validate alice = Ok u
  /\ delete_users (User.email u) (snd (post_users alice ([] : Mem.t)))
     = (mk_response HTTP_200_OK
          (Object {[ "message" :=
                     VStr (py "User with email " ++ User.email u
                           ++ py " deleted successfully") ]}), []).
Proof.
  split; [apply reachable_empty|]. split; [vm_compute; reflexivity|].
  apply (create_then_delete alice); [apply reachable_empty| |constructor].
  vm_compute. reflexivity.
Defined.


Lemma list_returns_every_user_witness :
  reachable one_user
  /\ exists (us : list User.t) (a : list doc),
       list_users one_user = (mk_response HTTP_200_OK (Array a), one_user)
       /\ Forall2 (fun d u => holds d u /\ canonical u) one_user us
       /\ Forall2 shows a us.
Proof.
  split; [apply reachable_one_user|].
  apply (list_returns_every_user one_user). apply reachable_one_user.
Defined.

Lemma create_twice_stores_twice_witness :
  let u := User.mk (py "alice01") (py "alice@example.com") [] true None [] in
  reachable ([] : Mem.t)
  /\ User.model_validate alice = Ok u
  /\ exists d1 d2,
       post_users alice ([] : Mem.t)
       = (mk_response HTTP_201_CREATED (Object (User.model_dump u)), [d1])
       /\ post_users alice [d1]
          = (mk_response HTTP_201_CREATED (Object (User.model_dump u)), [d1; d2])
       /\ holds d1 u /\ holds d2 u
       /\ d1 !! "_id" <> d2 !! "_id".
Proof.
  split; [apply reachable_empty|]. split; [vm_compute; reflexivity|].
  apply (create_twice_stores_twice alice _ []); [apply reachable_empty|].
  vm_compute. reflexivity.
Defined.

Lemma users_paths_reach_their_handlers_witness :
  py "alice01" <> []
  /\ serve app_routes GET (py "/users/" ++ py "alice01") ∅ one_user
     = search_users (py "alice01") one_user
  /\ serve app_routes DELETE (py "/users/" ++ py "alice01") ∅ one_user
     = delete_users (py "alice01") one_user.
Proof.
  split; [discriminate|].
  destruct (users_paths_reach_their_handlers (S := Mem.t) (py "alice01") ∅
              one_user) as (_ & _ & Hget & _ & Hdelete);
    [discriminate|reflexivity|].
  split; [apply Hget; discriminate|exact Hdelete].
Defined.
End MoreWitnesses.
